(** * Depth region inspector of the MYNT EYE sample [get_depth_with_region]

    A shallow embedding of [samples/api/get_depth_with_region.cc]: the class
    [DepthRegion] (mouse state machine [OnMouse], grid renderer [ShowElems],
    frame annotation [DrawRect]), the two lambdas of [main] ([elem2string]
    and the caption [depth_info]), the depth block of its loop and the exit
    test on [cv::waitKey], which [samples/tutorials/data/get_stereo.cc]
    shares.

    Conventions.
    - A C++ [int] or [std::uint32_t] value is a [Z]; every arithmetic
      operation of the source is written with the conversion the C++ usual
      arithmetic conversions apply to it ([CInt.to_uint32] when one operand
      is [std::uint32_t], [CInt.to_int] when the result is stored in an
      [int]).
    - OpenCV is external.  The calls the sample issues on its local canvas
      are recorded, in program order, as a list of [cv.call]; the frame that
      [DrawRect] receives by reference is threaded explicitly. *)

From Stdlib Require Import ZArith List Bool String Ascii Lia.
From Stdlib Require Import DecimalString DecimalZ.
Import ListNotations.
Local Open Scope Z_scope.

(** ** Machine integers *)

Module CInt.

Definition INT_MIN : Z := -2147483648.
Definition INT_MAX : Z := 2147483647.
Definition UINT32_MAX : Z := 4294967295.

(** Conversion to [std::uint32_t] (reduction modulo 2^32). *)
Definition to_uint32 (z : Z) : Z := z mod 4294967296.

(** Conversion to [int] (the two's-complement representative). *)
Definition to_int (z : Z) : Z := (z + 2147483648) mod 4294967296 - 2147483648.

(** Unsigned 32-bit arithmetic. *)
Definition uadd (a b : Z) : Z := to_uint32 (a + b).
Definition usub (a b : Z) : Z := to_uint32 (a - b).
Definition umul (a b : Z) : Z := to_uint32 (a * b).
Definition uneg (a : Z) : Z := to_uint32 (- a).

(** [int] arithmetic.  Signed overflow is undefined in C++; the embedding
    takes the wrapped value.  A theorem that equates such a sum or product
    with the ideal integer states that the latter is representable; the
    others speak of the value as the code computes it. *)
Definition iadd (a b : Z) : Z := to_int (a + b).
Definition isub (a b : Z) : Z := to_int (a - b).
Definition imul (a b : Z) : Z := to_int (a * b).

Definition is_int (z : Z) : Prop := INT_MIN <= z <= INT_MAX.
Definition is_uint32 (z : Z) : Prop := 0 <= z <= UINT32_MAX.

End CInt.

(** ** The OpenCV types and constants the sample uses *)

Module cv.

Record Point : Set := mkPoint { x : Z; y : Z }.
Record Size : Set := mkSize { width : Z; height : Z }.
Record Scalar : Set := mkScalar { v0 : Z; v1 : Z; v2 : Z; v3 : Z }.

(** [cv::Scalar(v0, v1, v2)]: the fourth channel defaults to 0. *)
Definition Scalar3 (a b c : Z) : Scalar := mkScalar a b c 0.

(** A matrix as the sample reads it: [rows], [cols] and [at<T>(y, x)]. *)
Record Mat (T : Type) : Type := mkMat { rows : Z; cols : Z; data : Z -> Z -> T }.
Arguments mkMat {T} _ _ _.
Arguments rows {T} _.
Arguments cols {T} _.
Arguments data {T} _ _ _.

(** The calls issued while rendering the grid. *)
Inductive call : Set :=
| NewMat (rows cols : Z) (fill : Scalar)
| At (y x : Z)
| PutText (text : string) (org : Point) (color : Scalar) (thickness : Z)
| ImShow (winname : string).

Definition EVENT_MOUSEMOVE : Z := 0.
Definition EVENT_LBUTTONDOWN : Z := 1.

End cv.

Definition CV_EVENT_MOUSEMOVE : Z := cv.EVENT_MOUSEMOVE.
Definition CV_EVENT_LBUTTONDOWN : Z := cv.EVENT_LBUTTONDOWN.

(** ** class DepthRegion *)

Record DepthRegion : Set := mkDepthRegion {
  n_ : Z;              (* std::uint32_t n_ *)
  show_ : bool;
  selected_ : bool;
  point_ : cv.Point
}.

(** [explicit DepthRegion(std::uint32_t n)] *)
Definition DepthRegion_new (n : Z) : DepthRegion :=
  {| n_ := n; show_ := false; selected_ := false; point_ := cv.mkPoint 0 0 |}.

Definition set_show (b : bool) (r : DepthRegion) : DepthRegion :=
  {| n_ := n_ r; show_ := b; selected_ := selected_ r; point_ := point_ r |}.

Definition set_selected (b : bool) (r : DepthRegion) : DepthRegion :=
  {| n_ := n_ r; show_ := show_ r; selected_ := b; point_ := point_ r |}.

Definition set_point (p : cv.Point) (r : DepthRegion) : DepthRegion :=
  {| n_ := n_ r; show_ := show_ r; selected_ := selected_ r; point_ := p |}.

(** The test of the [LBUTTONDOWN] branch:
    [x >= static_cast<int>(point_.x - n_) && x <= static_cast<int>(point_.x + n_) && ...].
    [point_.x - n_] mixes [int] and [std::uint32_t], hence is unsigned. *)
Definition in_region (r : DepthRegion) (x y : Z) : bool :=
  let px := cv.x (point_ r) in
  let py := cv.y (point_ r) in
  (x >=? CInt.to_int (CInt.usub (CInt.to_uint32 px) (n_ r))) &&
  (x <=? CInt.to_int (CInt.uadd (CInt.to_uint32 px) (n_ r))) &&
  (y >=? CInt.to_int (CInt.usub (CInt.to_uint32 py) (n_ r))) &&
  (y <=? CInt.to_int (CInt.uadd (CInt.to_uint32 py) (n_ r))).

(** [void OnMouse(const int &event, const int &x, const int &y, const int &flags)] *)
Definition OnMouse (event x y flags : Z) (r : DepthRegion) : DepthRegion :=
  if negb (event =? CV_EVENT_MOUSEMOVE) && negb (event =? CV_EVENT_LBUTTONDOWN)
  then r
  else
    let r := set_show true r in
    if event =? CV_EVENT_MOUSEMOVE then
      if negb (selected_ r) then set_point (cv.mkPoint x y) r else r
    else if event =? CV_EVENT_LBUTTONDOWN then
      let r :=
        if selected_ r then
          if in_region r x y then set_selected false r else r
        else set_selected true r in
      set_point (cv.mkPoint x y) r
    else r.

(** One delivery of the window callback
    [OnDepthMouseCallback(event, x, y, flags, userdata)]. *)
Record MouseEvent : Set := mkMouseEvent {
  ev_event : Z; ev_x : Z; ev_y : Z; ev_flags : Z
}.

Definition OnDepthMouseCallback (e : MouseEvent) (region : DepthRegion) : DepthRegion :=
  OnMouse (ev_event e) (ev_x e) (ev_y e) (ev_flags e) region.

(** The selector after a sequence of callbacks, oldest first. *)
Fixpoint deliver (evs : list MouseEvent) (region : DepthRegion) : DepthRegion :=
  match evs with
  | [] => region
  | e :: evs' => deliver evs' (OnDepthMouseCallback e region)
  end.

Definition is_move (e : MouseEvent) : bool := ev_event e =? CV_EVENT_MOUSEMOVE.
Definition is_down (e : MouseEvent) : bool := ev_event e =? CV_EVENT_LBUTTONDOWN.

(** ** ShowElems *)

(** The values the counter takes in [for (int i = first; i <= last; ++i)],
    one unit of fuel per iteration.  With [last = INT_MAX] the C++ loop
    would overflow its counter instead of stopping; the statements about
    the loop keep [last] below [INT_MAX]. *)
Fixpoint for_le (fuel : nat) (i last : Z) : list Z :=
  match fuel with
  | O => []
  | S fuel' => if i <=? last then i :: for_le fuel' (i + 1) last else []
  end.

Section ShowElems.

Context {T : Type}.

(** [cv::getTextSize(str, cv::FONT_HERSHEY_PLAIN, 1, 1, &baseline)] *)
Variable getTextSize : string -> cv.Size.

Variable depth : cv.Mat T.
Variable elem2string : T -> string.
Variable elem_space : Z.
Variable getinfo : option (cv.Mat T -> cv.Point -> Z -> string).
Variable r : DepthRegion.

(** [int space = std::move(elem_space);] *)
Definition grid_space : Z := elem_space.

(** [int n = 2 * n_ + 1;] *)
Definition grid_n : Z := CInt.to_int (CInt.uadd (CInt.umul 2 (n_ r)) 1).

(** The initial value of both loop counters, [int i = -n_]. *)
Definition grid_first : Z := CInt.to_int (CInt.uneg (n_ r)).

(** The offsets visited by [for (int i = -n_; i <= n; ++i)]; the loop over
    [j] has the same bounds. *)
Definition offsets : list Z :=
  for_le (Z.to_nat (grid_n - grid_first + 1)) grid_first grid_n.

(** The side passed twice to the constructor of the canvas, [space * n]. *)
Definition canvas_side : Z := CInt.imul grid_space grid_n.

(** The anchor handed to [cv::putText]:
    [cv::Point((i + n_) * space + (space - sz.width) / 2,
               (j + n_) * space + (space + sz.height) / 2)]. *)
Definition text_org (i j : Z) (sz : cv.Size) : cv.Point :=
  cv.mkPoint
    (CInt.to_int
       (CInt.uadd
          (CInt.umul (CInt.uadd (CInt.to_uint32 i) (n_ r)) (CInt.to_uint32 grid_space))
          (CInt.to_uint32 (Z.quot (CInt.isub grid_space (cv.width sz)) 2))))
    (CInt.to_int
       (CInt.uadd
          (CInt.umul (CInt.uadd (CInt.to_uint32 j) (n_ r)) (CInt.to_uint32 grid_space))
          (CInt.to_uint32 (Z.quot (CInt.iadd grid_space (cv.height sz)) 2)))).

(** The statements of the inner loop once both bounds tests have passed. *)
Definition draw_cell (i j x y : Z) : list cv.call :=
  let str := elem2string (cv.data depth y x) in
  let color :=
    if (i =? 0) && (j =? 0) then cv.Scalar3 0 0 255 else cv.Scalar3 0 0 0 in
  let sz := getTextSize str in
  [cv.At y x; cv.PutText str (text_org i j sz) color 1].

(** [x = point_.x + i;] and [y = point_.y + j;] *)
Definition sample_x (i : Z) : Z := CInt.iadd (cv.x (point_ r)) i.
Definition sample_y (j : Z) : Z := CInt.iadd (cv.y (point_ r)) j.

(** One iteration of the loop over [j]; [continue] leaves it empty. *)
Definition inner_body (i x j : Z) : list cv.call :=
  let y := sample_y j in
  if (y <? 0) || (y >=? cv.rows depth) then [] else draw_cell i j x y.

(** One iteration of the loop over [i]; [continue] skips the loop over [j]. *)
Definition outer_body (i : Z) : list cv.call :=
  let x := sample_x i in
  if (x <? 0) || (x >=? cv.cols depth) then []
  else flat_map (inner_body i x) offsets.

(** The [if (getinfo)] block. *)
Definition draw_info : list cv.call :=
  match getinfo with
  | None => []
  | Some f =>
      let info := f depth (point_ r) (n_ r) in
      if String.eqb info EmptyString then []
      else
        let sz := getTextSize info in
        [cv.PutText info (cv.mkPoint 5 (CInt.iadd 5 (cv.height sz)))
           (cv.Scalar3 255 0 255) 1]
  end.

(** [template <typename T> void ShowElems(depth, elem2string, elem_space, getinfo)]:
    the OpenCV calls it issues, in order. *)
Definition ShowElems : list cv.call :=
  if negb (show_ r) then []
  else
    cv.NewMat canvas_side canvas_side (cv.Scalar3 255 255 255)
      :: flat_map outer_body offsets ++ draw_info ++ [cv.ImShow "region"].

End ShowElems.

(** ** DrawRect *)

Section DrawRect.

Variable Image : Type.

(** [cv::rectangle(image, pt1, pt2, color, thickness)] *)
Variable rectangle : Image -> cv.Point -> cv.Point -> cv.Scalar -> Z -> Image.

(** [std::uint32_t n = (n_ > 1) ? n_ : 1;  n += 1;] *)
Definition rect_n (r : DepthRegion) : Z :=
  CInt.uadd (if n_ r >? 1 then n_ r else 1) 1.

(** [void DrawRect(cv::Mat &image)] *)
Definition DrawRect (r : DepthRegion) (image : Image) : Image :=
  if negb (show_ r) then image
  else
    let n := rect_n r in
    let px := cv.x (point_ r) in
    let py := cv.y (point_ r) in
    rectangle image
      (cv.mkPoint (CInt.to_int (CInt.usub (CInt.to_uint32 px) n))
                  (CInt.to_int (CInt.usub (CInt.to_uint32 py) n)))
      (cv.mkPoint (CInt.to_int (CInt.uadd (CInt.to_uint32 px) n))
                  (CInt.to_int (CInt.uadd (CInt.to_uint32 py) n)))
      (if selected_ r then cv.Scalar3 0 255 0 else cv.Scalar3 0 0 255) 1.

End DrawRect.

(** ** The formatting rule of [main] *)

(** [std::to_string] on an integer: its decimal numeral. *)
Definition to_string (v : Z) : string := NilZero.string_of_int (Z.to_int v).

(** The lambda [[](const ushort &elem) { ... }] passed to [ShowElems<ushort>]. *)
Definition depth_elem2string (elem : Z) : string :=
  if elem >=? 10000 then "invalid"%string else to_string elem.

(** The integer a decimal numeral denotes, when the text is one. *)
Definition decimal_value (s : string) : option Z :=
  option_map Z.of_int (NilZero.int_of_string s).

(** [ushort]: the element type of the [CV_16UC1] depth frame. *)
Definition is_ushort (v : Z) : Prop := 0 <= v <= 65535.

(** ** Statements under test and the inputs they are evaluated at *)

(** The half-width of the annotated rectangle as an ideal integer. *)
Definition half_width (r : DepthRegion) : Z := Z.max (n_ r) 1 + 1.

(** A click inside the pinned square unpins and keeps the point where it was. *)
Definition unpin_keeps_point (r : DepthRegion) (x y flags : Z) : Prop :=
  selected_ r = true ->
  Z.abs (x - cv.x (point_ r)) <= n_ r ->
  Z.abs (y - cv.y (point_ r)) <= n_ r ->
  selected_ (OnMouse CV_EVENT_LBUTTONDOWN x y flags r) = false /\
  point_ (OnMouse CV_EVENT_LBUTTONDOWN x y flags r) = point_ r.

(** Each loop counter ranges over [-n_, 2 * n_ + 1], that is [3 * n_ + 2] values. *)
Definition offsets_cover_range (r : DepthRegion) : Prop :=
  (forall i, In i (offsets r) <-> - n_ r <= i <= 2 * n_ r + 1) /\
  Z.of_nat (List.length (offsets r)) = 3 * n_ r + 2.

(** The canvas is created first, square, of side [(2 * n_ + 1) * elem_space]. *)
Definition canvas_is_square_of_side (T : Type) (getTextSize : string -> cv.Size)
    (depth : cv.Mat T) (elem2string : T -> string) (elem_space : Z)
    (getinfo : option (cv.Mat T -> cv.Point -> Z -> string))
    (r : DepthRegion) : Prop :=
  hd_error (ShowElems getTextSize depth elem2string elem_space getinfo r) =
  Some (cv.NewMat ((2 * n_ r + 1) * elem_space) ((2 * n_ r + 1) * elem_space)
          (cv.Scalar3 255 255 255)).

(** The frame receives one outline of thickness 1 around [point_], reaching
    [half_width] pixels in each direction, green when selected and red
    otherwise. *)
Definition rect_around_point (Image : Type)
    (rectangle : Image -> cv.Point -> cv.Point -> cv.Scalar -> Z -> Image)
    (r : DepthRegion) (image : Image) : Prop :=
  DrawRect Image rectangle r image =
  rectangle image
    (cv.mkPoint (cv.x (point_ r) - half_width r) (cv.y (point_ r) - half_width r))
    (cv.mkPoint (cv.x (point_ r) + half_width r) (cv.y (point_ r) + half_width r))
    (if selected_ r then cv.Scalar3 0 255 0 else cv.Scalar3 0 0 255) 1.

(** A frame that remembers the rectangles drawn on it, latest first. *)
Definition Outline : Set := (cv.Point * cv.Point * cv.Scalar * Z)%type.

Definition outline_rectangle (image : list Outline) (pt1 pt2 : cv.Point)
    (color : cv.Scalar) (thickness : Z) : list Outline :=
  (pt1, pt2, color, thickness) :: image.

(** A 640 x 480 depth frame whose sample at row [y], column [x] is [x + y]. *)
Definition ramp_frame : cv.Mat Z := cv.mkMat 480 640 (fun y x => x + y).

(** Every text is taken to be 9 pixels wide per character and 10 high. *)
Definition fixed_text_size (s : string) : cv.Size :=
  cv.mkSize (9 * Z.of_nat (String.length s)) 10.

(** The selector of [main], [DepthRegion depth_region(3)], pinned at (10, 10). *)
Definition pinned_at_10_10 : DepthRegion :=
  mkDepthRegion 3 true true (cv.mkPoint 10 10).

(** A shown selector of radius [n] hovering over the top-left pixel. *)
Definition shown_at_origin (n : Z) : DepthRegion :=
  mkDepthRegion n true false (cv.mkPoint 0 0).

(** ** The caller: [main] *)

(** The plus-minus sign of the caption, two bytes in the UTF-8 source. *)
Definition plus_minus : string :=
  String (ascii_of_nat 194) (String (ascii_of_nat 177) EmptyString).

(** The lambda [depth_info]:
    [os << "depth pos: [" << point.y << ", " << point.x << "]" << "+-" << n << ", unit: mm"]
    (the sign is [plus_minus]); the frame is unused. *)
Definition depth_info {T : Type} (depth : cv.Mat T) (point : cv.Point) (n : Z) : string :=
  ("depth pos: [" ++ to_string (cv.y point) ++ ", " ++ to_string (cv.x point)
     ++ "]" ++ plus_minus ++ to_string n ++ ", unit: mm")%string.

(** [static_cast<char>(...)], as the 8-bit two's-complement representative. *)
Definition to_char (k : Z) : Z := (k + 128) mod 256 - 128.

(** The exit test of the loop on the result of [cv::waitKey(1)]:
    [key == 27 || key == 'q' || key == 'Q']. *)
Definition is_exit_key (wait_key : Z) : bool :=
  let key := to_char wait_key in
  (key =? 27) || (key =? 113) || (key =? 81).

Section MainDepthBlock.

Variable getTextSize : string -> cv.Size.

(** [cv::rectangle] on the [CV_16UC1] depth frame. *)
Variable rectangle :
  cv.Mat Z -> cv.Point -> cv.Point -> cv.Scalar -> Z -> cv.Mat Z.

(** The body of [if (!depth_data.frame.empty())] once the callback is
    registered: [DrawRect] on the frame, [imshow("depth", ...)], then
    [ShowElems<ushort>] on the frame as [DrawRect] left it, with cell size 80
    and the caption [depth_info].  Returns the frame and the calls. *)
Definition main_depth_block (depth_region : DepthRegion) (depth_frame : cv.Mat Z)
    : cv.Mat Z * list cv.call :=
  let depth_frame := DrawRect (cv.Mat Z) rectangle depth_region depth_frame in
  (depth_frame,
   cv.ImShow "depth"
     :: ShowElems getTextSize depth_frame depth_elem2string 80
          (Some depth_info) depth_region).

End MainDepthBlock.

(** ** Observations on a trace of calls *)

Definition is_read (c : cv.call) : bool :=
  match c with cv.At _ _ => true | _ => false end.

Definition is_text (c : cv.call) : bool :=
  match c with cv.PutText _ _ _ _ => true | _ => false end.

(** The offsets that pass the test of the loop over [i], respectively [j]. *)
Definition col_inside {T : Type} (depth : cv.Mat T) (r : DepthRegion) (i : Z) : bool :=
  negb ((sample_x r i <? 0) || (sample_x r i >=? cv.cols depth)).

Definition row_inside {T : Type} (depth : cv.Mat T) (r : DepthRegion) (j : Z) : bool :=
  negb ((sample_y r j <? 0) || (sample_y r j >=? cv.rows depth)).

(** The selector of [main] after some callbacks. *)
Definition main_region (evs : list MouseEvent) : DepthRegion :=
  deliver evs (DepthRegion_new 3).

(** A stand-in for [cv::rectangle] that leaves the samples alone. *)
Definition keep_frame (image : cv.Mat Z) (pt1 pt2 : cv.Point) (color : cv.Scalar)
    (thickness : Z) : cv.Mat Z := image.

(** * Properties *)

(** ** Machine integers *)

Lemma to_int_representable (z : Z) : CInt.is_int z -> CInt.to_int z = z.
Proof.
  unfold CInt.is_int, CInt.INT_MIN, CInt.INT_MAX, CInt.to_int. intros Hz.
  rewrite Z.mod_small; lia.
Qed.

Lemma to_uint32_representable (z : Z) : CInt.is_uint32 z -> CInt.to_uint32 z = z.
Proof.
  unfold CInt.is_uint32, CInt.UINT32_MAX, CInt.to_uint32. intros Hz.
  apply Z.mod_small. lia.
Qed.

Lemma to_int_to_uint32 (z : Z) : CInt.to_int (CInt.to_uint32 z) = CInt.to_int z.
Proof.
  unfold CInt.to_int, CInt.to_uint32. now rewrite Zplus_mod_idemp_l.
Qed.

(** [static_cast<int>(a - n)] with [a] an [int] and [n] unsigned is the ideal
    difference as soon as that difference is an [int]. *)
Lemma mixed_sub_representable (a n : Z) :
  CInt.is_int (a - n) ->
  CInt.to_int (CInt.usub (CInt.to_uint32 a) n) = a - n.
Proof.
  intros H. rewrite <- (to_int_representable (a - n) H).
  unfold CInt.usub. rewrite to_int_to_uint32. unfold CInt.to_int, CInt.to_uint32.
  f_equal. rewrite <- Zplus_mod_idemp_l, Zminus_mod_idemp_l.
  now rewrite Zplus_mod_idemp_l.
Qed.

Lemma mixed_add_representable (a n : Z) :
  CInt.is_int (a + n) ->
  CInt.to_int (CInt.uadd (CInt.to_uint32 a) n) = a + n.
Proof.
  intros H. rewrite <- (to_int_representable (a + n) H).
  unfold CInt.uadd. rewrite to_int_to_uint32. unfold CInt.to_int, CInt.to_uint32.
  f_equal. rewrite <- Zplus_mod_idemp_l, (Zplus_mod_idemp_l a n).
  now rewrite Zplus_mod_idemp_l.
Qed.

(** ** The mouse state machine *)

Lemma OnMouse_other (event x y flags : Z) (r : DepthRegion) :
  event <> CV_EVENT_MOUSEMOVE -> event <> CV_EVENT_LBUTTONDOWN ->
  OnMouse event x y flags r = r.
Proof.
  intros Hm Hd. unfold OnMouse.
  apply Z.eqb_neq in Hm. apply Z.eqb_neq in Hd. now rewrite Hm, Hd.
Qed.

Lemma OnMouse_move (x y flags : Z) (r : DepthRegion) :
  OnMouse CV_EVENT_MOUSEMOVE x y flags r =
  if selected_ r then set_show true r
  else set_point (cv.mkPoint x y) (set_show true r).
Proof. unfold OnMouse. cbn. now destruct (selected_ r). Qed.

Lemma OnMouse_down (x y flags : Z) (r : DepthRegion) :
  OnMouse CV_EVENT_LBUTTONDOWN x y flags r =
  {| n_ := n_ r; show_ := true;
     selected_ := if selected_ r then negb (in_region r x y) else true;
     point_ := cv.mkPoint x y |}.
Proof.
  unfold OnMouse. cbn.
  destruct (selected_ r) eqn:Hs; cbn; [ | reflexivity ].
  change (in_region (set_show true r) x y) with (in_region r x y).
  destruct (in_region r x y); unfold set_point, set_selected, set_show; cbn;
    rewrite ?Hs; reflexivity.
Qed.

(** An event either is ignored or raises [show_]. *)
Lemma OnMouse_ignored_or_shown (event x y flags : Z) (r : DepthRegion) :
  OnMouse event x y flags r = r \/ show_ (OnMouse event x y flags r) = true.
Proof.
  destruct (Z.eq_dec event CV_EVENT_MOUSEMOVE) as [-> | Hm].
  - right. rewrite OnMouse_move. now destruct (selected_ r).
  - destruct (Z.eq_dec event CV_EVENT_LBUTTONDOWN) as [-> | Hd].
    + right. now rewrite OnMouse_down.
    + left. now apply OnMouse_other.
Qed.

Lemma OnMouse_keeps_shown (event x y flags : Z) (r : DepthRegion) :
  show_ r = true -> show_ (OnMouse event x y flags r) = true.
Proof.
  intros Hs. destruct (OnMouse_ignored_or_shown event x y flags r) as [-> | H];
    assumption.
Qed.

Lemma OnMouse_trigger_shows (event x y flags : Z) (r : DepthRegion) :
  event = CV_EVENT_MOUSEMOVE \/ event = CV_EVENT_LBUTTONDOWN ->
  show_ (OnMouse event x y flags r) = true.
Proof.
  intros [-> | ->].
  - rewrite OnMouse_move. now destruct (selected_ r).
  - now rewrite OnMouse_down.
Qed.

Lemma deliver_app (evs1 evs2 : list MouseEvent) (r : DepthRegion) :
  deliver (evs1 ++ evs2) r = deliver evs2 (deliver evs1 r).
Proof.
  revert r. induction evs1 as [ | e evs1 IH]; intros r; cbn; [ reflexivity | ].
  apply IH.
Qed.

Lemma deliver_keeps_shown (evs : list MouseEvent) (r : DepthRegion) :
  show_ r = true -> show_ (deliver evs r) = true.
Proof.
  revert r. induction evs as [ | e evs IH]; intros r Hs; cbn; [ assumption | ].
  apply IH. now apply OnMouse_keeps_shown.
Qed.

Lemma deliver_hidden_unchanged (evs : list MouseEvent) (r : DepthRegion) :
  show_ (deliver evs r) = false -> deliver evs r = r.
Proof.
  revert r. induction evs as [ | e evs IH]; intros r Hs; cbn in *; [ reflexivity | ].
  rewrite (IH _ Hs) in Hs |- *. unfold OnDepthMouseCallback in *.
  destruct (OnMouse_ignored_or_shown (ev_event e) (ev_x e) (ev_y e) (ev_flags e) r)
    as [Heq | Hshown]; [ assumption | congruence ].
Qed.

Lemma in_region_ideal (r : DepthRegion) (x y : Z) :
  CInt.is_int (cv.x (point_ r) - n_ r) -> CInt.is_int (cv.x (point_ r) + n_ r) ->
  CInt.is_int (cv.y (point_ r) - n_ r) -> CInt.is_int (cv.y (point_ r) + n_ r) ->
  in_region r x y = true <->
  Z.abs (x - cv.x (point_ r)) <= n_ r /\ Z.abs (y - cv.y (point_ r)) <= n_ r.
Proof.
  intros Hxl Hxh Hyl Hyh. unfold in_region.
  rewrite !mixed_sub_representable, !mixed_add_representable by assumption.
  rewrite !andb_true_iff, !Z.geb_le, !Z.leb_le. lia.
Qed.

Lemma moves_track_pointer (evs : list MouseEvent) (e : MouseEvent) (r : DepthRegion) :
  selected_ r = false -> forallb is_move (evs ++ [e]) = true ->
  selected_ (deliver (evs ++ [e]) r) = false /\
  point_ (deliver (evs ++ [e]) r) = cv.mkPoint (ev_x e) (ev_y e).
Proof.
  revert r. induction evs as [ | e0 evs IH]; intros r Hsel Hall.
  - cbn in Hall. rewrite andb_true_r in Hall. apply Z.eqb_eq in Hall.
    cbn. unfold OnDepthMouseCallback. rewrite Hall, OnMouse_move, Hsel.
    now split.
  - cbn in Hall. apply andb_true_iff in Hall as [H0 Hall].
    apply Z.eqb_eq in H0. cbn [app deliver]. apply IH; [ | assumption ].
    unfold OnDepthMouseCallback. now rewrite H0, OnMouse_move, Hsel.
Qed.

(** C1 (amended).  When the selector is pinned at [P] with radius [R], and
    [P.x - R], [P.x + R], [P.y - R], [P.y + R] are representable as [int], a
    left-button-down event at [(x, y)] with [|x - P.x| <= R] and
    [|y - P.y| <= R] clears [selected_] and stores [(x, y)] in [point_]: the
    assignment of [point_] after the [if]/[else] runs in every branch. *)
Theorem OnMouse_down_inside_unpins_and_moves (r : DepthRegion) (x y flags : Z) :
  selected_ r = true ->
  CInt.is_int (cv.x (point_ r) - n_ r) -> CInt.is_int (cv.x (point_ r) + n_ r) ->
  CInt.is_int (cv.y (point_ r) - n_ r) -> CInt.is_int (cv.y (point_ r) + n_ r) ->
  Z.abs (x - cv.x (point_ r)) <= n_ r ->
  Z.abs (y - cv.y (point_ r)) <= n_ r ->
  selected_ (OnMouse CV_EVENT_LBUTTONDOWN x y flags r) = false /\
  point_ (OnMouse CV_EVENT_LBUTTONDOWN x y flags r) = cv.mkPoint x y.
Proof.
  intros Hsel Hxl Hxh Hyl Hyh Hx Hy. rewrite OnMouse_down. cbn. rewrite Hsel.
  split; [ | reflexivity ].
  assert (Hin : in_region r x y = true) by (apply in_region_ideal; auto).
  now rewrite Hin.
Qed.

Lemma OnMouse_down_inside_unpins_and_moves_witness :
  selected_ pinned_at_10_10 = true /\
  Z.abs (11 - 10) <= 3 /\ Z.abs (10 - 10) <= 3 /\
  selected_ (OnMouse CV_EVENT_LBUTTONDOWN 11 10 0 pinned_at_10_10) = false /\
  point_ (OnMouse CV_EVENT_LBUTTONDOWN 11 10 0 pinned_at_10_10) = cv.mkPoint 11 10.
Proof.
  split; [ reflexivity | ]. split; [ cbn; lia | ]. split; [ cbn; lia | ].
  apply (OnMouse_down_inside_unpins_and_moves pinned_at_10_10 11 10 0);
    try reflexivity;
    try (unfold CInt.is_int, CInt.INT_MIN, CInt.INT_MAX; cbn; lia);
    cbn; lia.
Defined.

(** The click at (11, 10) lies inside the square around (10, 10), yet the
    point does not stay at (10, 10). *)
Lemma unpin_keeps_point_fails : ~ unpin_keeps_point pinned_at_10_10 11 10 0.
Proof.
  unfold unpin_keeps_point. intros H.
  destruct H as [_ Hpt]; [ reflexivity | cbn; lia | cbn; lia | ].
  discriminate Hpt.
Qed.

(** The comparison is made on 32-bit values: next to [INT_MAX] the upper
    bound [point_.x + n_] wraps and the pinned point itself is outside. *)
Remark in_region_wraps_near_INT_MAX :
  in_region (mkDepthRegion 3 true true (cv.mkPoint CInt.INT_MAX 10)) CInt.INT_MAX 10
  = false.
Proof. reflexivity. Qed.

(** C3.  Once a mouse-move or left-button-down event has been delivered,
    [show_] is true, and it is still true after any further events,
    whatever their kind.  ([OnMouse] is the only member function that
    assigns a field; [ShowElems] and [DrawRect] only read the selector.) *)
Theorem show_is_latched (pre post : list MouseEvent) (e : MouseEvent)
    (r : DepthRegion) :
  is_move e || is_down e = true ->
  show_ (deliver (pre ++ [e]) r) = true /\
  show_ (deliver (pre ++ e :: post) r) = true.
Proof.
  intros He.
  assert (Hstep : show_ (OnDepthMouseCallback e (deliver pre r)) = true).
  { apply OnMouse_trigger_shows. unfold is_move, is_down in He.
    apply orb_true_iff in He as [He | He]; apply Z.eqb_eq in He; auto. }
  rewrite !deliver_app. cbn. split; [ assumption | ].
  now apply deliver_keeps_shown.
Qed.

Lemma show_is_latched_witness :
  let pre := [mkMouseEvent 2 4 4 0] in
  let e := mkMouseEvent CV_EVENT_MOUSEMOVE 5 6 0 in
  let post := [mkMouseEvent 2 0 0 0; mkMouseEvent CV_EVENT_LBUTTONDOWN 5 6 0;
               mkMouseEvent 7 1 1 0] in
  is_move e || is_down e = true /\
  show_ (deliver pre (DepthRegion_new 3)) = false /\
  show_ (deliver (pre ++ [e]) (DepthRegion_new 3)) = true /\
  show_ (deliver (pre ++ e :: post) (DepthRegion_new 3)) = true.
Proof.
  cbv zeta. split; [ reflexivity | ]. split; [ reflexivity | ].
  apply (show_is_latched [mkMouseEvent 2 4 4 0]
           [mkMouseEvent 2 0 0 0; mkMouseEvent CV_EVENT_LBUTTONDOWN 5 6 0;
            mkMouseEvent 7 1 1 0]
           (mkMouseEvent CV_EVENT_MOUSEMOVE 5 6 0) (DepthRegion_new 3)).
  reflexivity.
Defined.

(** C4.  An event that is neither a mouse move nor a left-button-down leaves
    the whole selector unchanged; a mouse move at [(x, y)] stores [(x, y)] in
    [point_] when [selected_] is false and leaves [point_] alone when it is
    true; so after a non-empty run of mouse moves that starts unselected,
    [point_] holds the coordinates of the last one. *)
Theorem OnMouse_not_down (r : DepthRegion) (event x y flags : Z) :
  (event <> CV_EVENT_MOUSEMOVE -> event <> CV_EVENT_LBUTTONDOWN ->
   OnMouse event x y flags r = r) /\
  (selected_ r = false ->
   point_ (OnMouse CV_EVENT_MOUSEMOVE x y flags r) = cv.mkPoint x y) /\
  (selected_ r = true ->
   point_ (OnMouse CV_EVENT_MOUSEMOVE x y flags r) = point_ r) /\
  (forall (evs : list MouseEvent) (e : MouseEvent),
     selected_ r = false -> forallb is_move (evs ++ [e]) = true ->
     point_ (deliver (evs ++ [e]) r) = cv.mkPoint (ev_x e) (ev_y e)).
Proof.
  split; [ apply OnMouse_other | ].
  split; [ intros Hs; now rewrite OnMouse_move, Hs | ].
  split; [ intros Hs; now rewrite OnMouse_move, Hs | ].
  intros evs e Hs Hall. now apply moves_track_pointer.
Qed.

Lemma OnMouse_not_down_witness :
  OnMouse 2 5 6 0 pinned_at_10_10 = pinned_at_10_10 /\
  point_ (OnMouse CV_EVENT_MOUSEMOVE 5 6 0 (DepthRegion_new 3)) = cv.mkPoint 5 6 /\
  point_ (OnMouse CV_EVENT_MOUSEMOVE 5 6 0 pinned_at_10_10) = cv.mkPoint 10 10 /\
  point_ (deliver ([mkMouseEvent CV_EVENT_MOUSEMOVE 1 2 0;
                    mkMouseEvent CV_EVENT_MOUSEMOVE 3 4 0]
                   ++ [mkMouseEvent CV_EVENT_MOUSEMOVE 5 6 0]) (DepthRegion_new 3))
  = cv.mkPoint 5 6.
Proof.
  destruct (OnMouse_not_down pinned_at_10_10 2 5 6 0) as (Hother & _ & Hpinned & _).
  destruct (OnMouse_not_down (DepthRegion_new 3) 2 5 6 0) as (_ & Hfree & _ & Hrun).
  split; [ apply Hother; discriminate | ].
  split; [ apply Hfree; reflexivity | ].
  split; [ apply Hpinned; reflexivity | ].
  apply (Hrun [mkMouseEvent CV_EVENT_MOUSEMOVE 1 2 0;
               mkMouseEvent CV_EVENT_MOUSEMOVE 3 4 0]
              (mkMouseEvent CV_EVENT_MOUSEMOVE 5 6 0)); reflexivity.
Defined.

(** C10.  Whatever events have been delivered to a freshly constructed
    selector, if [show_] is still false the selector is exactly the initial
    one: [point_] is (0, 0) and [selected_] is false. *)
Theorem hidden_selector_is_initial (n : Z) (evs : list MouseEvent) :
  show_ (deliver evs (DepthRegion_new n)) = false ->
  deliver evs (DepthRegion_new n) = DepthRegion_new n /\
  point_ (deliver evs (DepthRegion_new n)) = cv.mkPoint 0 0 /\
  selected_ (deliver evs (DepthRegion_new n)) = false.
Proof.
  intros Hs. apply deliver_hidden_unchanged in Hs. rewrite Hs. now repeat split.
Qed.

Lemma hidden_selector_is_initial_witness :
  let evs := [mkMouseEvent 2 7 8 0; mkMouseEvent 4 1 1 0] in
  show_ (deliver evs (DepthRegion_new 3)) = false /\
  deliver evs (DepthRegion_new 3) = DepthRegion_new 3 /\
  point_ (deliver evs (DepthRegion_new 3)) = cv.mkPoint 0 0 /\
  selected_ (deliver evs (DepthRegion_new 3)) = false.
Proof.
  cbv zeta. split; [ reflexivity | ].
  apply (hidden_selector_is_initial 3 [mkMouseEvent 2 7 8 0; mkMouseEvent 4 1 1 0]).
  reflexivity.
Defined.

(** ** The loops of ShowElems *)

(** Closes range side conditions on concrete or linear integer terms. *)
Ltac int_bounds :=
  unfold CInt.is_int, CInt.is_uint32, CInt.INT_MIN, CInt.INT_MAX,
    CInt.UINT32_MAX in *;
  cbn in *; lia.

Lemma for_le_In (fuel : nat) (i last k : Z) :
  Z.of_nat fuel = Z.max 0 (last - i + 1) ->
  In k (for_le fuel i last) <-> i <= k <= last.
Proof.
  revert i. induction fuel as [ | fuel IH]; intros i Hfuel.
  - cbn. lia.
  - cbn [for_le]. destruct (Z.leb_spec i last) as [Hle | Hgt]; [ | lia ].
    cbn [In]. rewrite IH by lia. lia.
Qed.

Lemma for_le_length (fuel : nat) (i last : Z) :
  Z.of_nat fuel = Z.max 0 (last - i + 1) ->
  List.length (for_le fuel i last) = fuel.
Proof.
  revert i. induction fuel as [ | fuel IH]; intros i Hfuel; [ reflexivity | ].
  cbn [for_le]. destruct (Z.leb_spec i last) as [Hle | Hgt]; [ | lia ].
  cbn [List.length]. f_equal. apply IH. lia.
Qed.

Lemma grid_n_ideal (r : DepthRegion) :
  0 <= n_ r -> 2 * n_ r + 1 <= CInt.INT_MAX -> grid_n r = 2 * n_ r + 1.
Proof.
  unfold CInt.INT_MAX, grid_n, CInt.uadd, CInt.umul. intros Hn Hmax.
  rewrite (to_uint32_representable (2 * n_ r))
    by (unfold CInt.is_uint32, CInt.UINT32_MAX; lia).
  rewrite to_int_to_uint32. apply to_int_representable.
  unfold CInt.is_int, CInt.INT_MIN, CInt.INT_MAX. lia.
Qed.

Lemma grid_first_ideal (r : DepthRegion) :
  0 <= n_ r <= CInt.INT_MAX -> grid_first r = - n_ r.
Proof.
  unfold CInt.INT_MAX, grid_first, CInt.uneg. intros Hn.
  rewrite to_int_to_uint32. apply to_int_representable.
  unfold CInt.is_int, CInt.INT_MIN, CInt.INT_MAX. lia.
Qed.

(** C2 (amended).  For every radius [n_ >= 0] with [2 * n_ + 1 < INT_MAX],
    the counter of each of the two loops takes exactly the values of the
    inclusive range [-n_, 2 * n_ + 1], which are [3 * n_ + 2] values. *)
Theorem offsets_asymmetric_range (r : DepthRegion) :
  0 <= n_ r -> 2 * n_ r + 1 < CInt.INT_MAX -> offsets_cover_range r.
Proof.
  intros Hn Hmax. unfold offsets_cover_range, offsets.
  assert (Hlast : grid_n r = 2 * n_ r + 1) by (apply grid_n_ideal; lia).
  assert (Hfirst : grid_first r = - n_ r)
    by (apply grid_first_ideal; unfold CInt.INT_MAX in *; lia).
  rewrite Hlast, Hfirst. split.
  - intros i. apply for_le_In. lia.
  - rewrite for_le_length by lia. lia.
Qed.

Lemma offsets_asymmetric_range_witness :
  0 <= n_ pinned_at_10_10 /\ 2 * n_ pinned_at_10_10 + 1 < CInt.INT_MAX /\
  offsets pinned_at_10_10 = [-3; -2; -1; 0; 1; 2; 3; 4; 5; 6; 7] /\
  offsets_cover_range pinned_at_10_10.
Proof.
  split; [ int_bounds | ]. split; [ int_bounds | ]. split; [ reflexivity | ].
  apply (offsets_asymmetric_range pinned_at_10_10); int_bounds.
Defined.

(** With [n_ = 2^31 + 1] the counter starts at [INT_MAX] and the bound
    [2 * n_ + 1] has wrapped to 3: the loop body never runs. *)
Lemma offsets_cover_range_fails :
  offsets (shown_at_origin 2147483649) = [] /\
  ~ offsets_cover_range (shown_at_origin 2147483649).
Proof.
  split; [ reflexivity | ].
  intros [_ Hlen]. vm_compute in Hlen. discriminate Hlen.
Qed.

(** ** The canvas *)

Lemma canvas_side_ideal (elem_space : Z) (r : DepthRegion) :
  0 <= n_ r -> 0 < elem_space -> (2 * n_ r + 1) * elem_space <= CInt.INT_MAX ->
  canvas_side elem_space r = (2 * n_ r + 1) * elem_space.
Proof.
  intros Hn Hc Hmax. unfold canvas_side, grid_space, CInt.imul.
  rewrite grid_n_ideal by (unfold CInt.INT_MAX in *; nia).
  rewrite Z.mul_comm. apply to_int_representable.
  unfold CInt.is_int, CInt.INT_MIN, CInt.INT_MAX in *. nia.
Qed.

(** C6 (amended).  For every shown selector of radius [n_ >= 0] and every
    cell size [elem_space > 0] such that [(2 * n_ + 1) * elem_space] is
    representable as [int], [ShowElems] first creates its canvas with
    [(2 * n_ + 1) * elem_space] rows and as many columns; for radius 3 and
    cell size 80 that is 560. *)
Theorem ShowElems_canvas_side (T : Type) (getTextSize : string -> cv.Size)
    (depth : cv.Mat T) (elem2string : T -> string) (elem_space : Z)
    (getinfo : option (cv.Mat T -> cv.Point -> Z -> string)) (r : DepthRegion) :
  show_ r = true -> 0 <= n_ r -> 0 < elem_space ->
  (2 * n_ r + 1) * elem_space <= CInt.INT_MAX ->
  canvas_is_square_of_side T getTextSize depth elem2string elem_space getinfo r.
Proof.
  intros Hshow Hn Hc Hmax. unfold canvas_is_square_of_side, ShowElems.
  rewrite Hshow. cbn [negb hd_error].
  now rewrite canvas_side_ideal.
Qed.

Lemma ShowElems_canvas_side_witness :
  show_ (shown_at_origin 3) = true /\ 0 < 80 /\
  hd_error (ShowElems fixed_text_size ramp_frame depth_elem2string 80 None
              (shown_at_origin 3)) =
  Some (cv.NewMat 560 560 (cv.Scalar3 255 255 255)).
Proof.
  split; [ reflexivity | ]. split; [ lia | ].
  apply (ShowElems_canvas_side Z fixed_text_size ramp_frame depth_elem2string 80
           None (shown_at_origin 3)); try reflexivity; int_bounds.
Defined.

(** With [n_ = 2^31 + 1] the product [2 * n_] wraps in [std::uint32_t]:
    [n] is 3 and the canvas is 240 x 240 for a cell size of 80. *)
Lemma canvas_is_square_of_side_fails :
  show_ (shown_at_origin 2147483649) = true /\ 0 < 80 /\
  hd_error (ShowElems fixed_text_size ramp_frame depth_elem2string 80 None
              (shown_at_origin 2147483649)) =
  Some (cv.NewMat 240 240 (cv.Scalar3 255 255 255)) /\
  ~ canvas_is_square_of_side Z fixed_text_size ramp_frame depth_elem2string 80
      None (shown_at_origin 2147483649).
Proof.
  split; [ reflexivity | ]. split; [ lia | ]. split; [ reflexivity | ].
  unfold canvas_is_square_of_side. intros H. vm_compute in H. discriminate H.
Qed.

(** ** DrawRect *)

Lemma rect_n_ideal (r : DepthRegion) :
  0 <= n_ r < CInt.UINT32_MAX -> rect_n r = half_width r.
Proof.
  unfold CInt.UINT32_MAX, rect_n, half_width, CInt.uadd. intros Hn.
  destruct (Z.gtb_spec (n_ r) 1) as [Hgt | Hle].
  - rewrite Z.max_l by lia. apply to_uint32_representable. int_bounds.
  - rewrite Z.max_r by lia. reflexivity.
Qed.

(** C7 (amended).  For every shown selector whose radius is below
    [UINT32_MAX] and whose four corners [point_ -/+ (max(n_, 1) + 1)] are
    representable as [int], [DrawRect] draws on the frame one rectangle of
    thickness 1 (an outline) from [point_ - h] to [point_ + h] with
    [h = max(n_, 1) + 1], in the colour (0, 255, 0) when [selected_] is
    true and in the different colour (0, 0, 255) when it is false. *)
Theorem DrawRect_outline (Image : Type)
    (rectangle : Image -> cv.Point -> cv.Point -> cv.Scalar -> Z -> Image)
    (r : DepthRegion) (image : Image) :
  show_ r = true -> 0 <= n_ r < CInt.UINT32_MAX ->
  CInt.is_int (cv.x (point_ r) - half_width r) ->
  CInt.is_int (cv.x (point_ r) + half_width r) ->
  CInt.is_int (cv.y (point_ r) - half_width r) ->
  CInt.is_int (cv.y (point_ r) + half_width r) ->
  rect_around_point Image rectangle r image /\
  cv.Scalar3 0 255 0 <> cv.Scalar3 0 0 255.
Proof.
  intros Hshow Hn Hxl Hxh Hyl Hyh. split; [ | discriminate ].
  unfold rect_around_point, DrawRect. rewrite Hshow. cbn [negb].
  rewrite rect_n_ideal by assumption.
  now rewrite !mixed_sub_representable, !mixed_add_representable by assumption.
Qed.

Lemma DrawRect_outline_witness :
  half_width (mkDepthRegion 0 true false (cv.mkPoint 10 10)) = 2 /\
  half_width pinned_at_10_10 = 4 /\
  DrawRect (list Outline) outline_rectangle
    (mkDepthRegion 0 true false (cv.mkPoint 10 10)) [] =
  [(cv.mkPoint 8 8, cv.mkPoint 12 12, cv.Scalar3 0 0 255, 1)] /\
  DrawRect (list Outline) outline_rectangle pinned_at_10_10 [] =
  [(cv.mkPoint 6 6, cv.mkPoint 14 14, cv.Scalar3 0 255 0, 1)].
Proof.
  split; [ reflexivity | ]. split; [ reflexivity | ]. split.
  - apply (DrawRect_outline (list Outline) outline_rectangle
             (mkDepthRegion 0 true false (cv.mkPoint 10 10)) []);
      try reflexivity; int_bounds.
  - apply (DrawRect_outline (list Outline) outline_rectangle pinned_at_10_10 []);
      try reflexivity; int_bounds.
Defined.

(** With [n_ = UINT32_MAX] the increment [n += 1] wraps to 0 and both
    corners coincide with the point. *)
Lemma rect_around_point_fails :
  show_ (mkDepthRegion 4294967295 true false (cv.mkPoint 10 10)) = true /\
  DrawRect (list Outline) outline_rectangle
    (mkDepthRegion 4294967295 true false (cv.mkPoint 10 10)) [] =
  [(cv.mkPoint 10 10, cv.mkPoint 10 10, cv.Scalar3 0 0 255, 1)] /\
  ~ rect_around_point (list Outline) outline_rectangle
      (mkDepthRegion 4294967295 true false (cv.mkPoint 10 10)) [].
Proof.
  split; [ reflexivity | ]. split; [ reflexivity | ].
  unfold rect_around_point. intros H. vm_compute in H. discriminate H.
Qed.

(** ** Cells outside the depth frame *)

(** The sampled column and row are the ideal sums whenever these are
    representable. *)
Lemma sample_ideal (r : DepthRegion) (i j : Z) :
  CInt.is_int (cv.x (point_ r) + i) -> CInt.is_int (cv.y (point_ r) + j) ->
  sample_x r i = cv.x (point_ r) + i /\ sample_y r j = cv.y (point_ r) + j.
Proof.
  intros Hx Hy. unfold sample_x, sample_y, CInt.iadd.
  now rewrite !to_int_representable.
Qed.

Section Cells.

Context {T : Type}.
Variable getTextSize : string -> cv.Size.
Variable depth : cv.Mat T.
Variable elem2string : T -> string.
Variable elem_space : Z.
Variable getinfo : option (cv.Mat T -> cv.Point -> Z -> string).
Variable r : DepthRegion.

Lemma inner_body_outside (i x j : Z) :
  sample_y r j < 0 \/ cv.rows depth <= sample_y r j ->
  inner_body getTextSize depth elem2string elem_space r i x j = [].
Proof.
  intros Hout. unfold inner_body. cbv zeta.
  destruct (Z.ltb_spec (sample_y r j) 0) as [Hlt | Hge]; [ reflexivity | ].
  destruct (Z.geb_spec (sample_y r j) (cv.rows depth)) as [Hhi | Hlo]; [ reflexivity | ].
  lia.
Qed.

Lemma inner_body_inside (i x j : Z) :
  0 <= sample_y r j < cv.rows depth ->
  inner_body getTextSize depth elem2string elem_space r i x j =
  draw_cell getTextSize depth elem2string elem_space r i j x (sample_y r j).
Proof.
  intros Hin. unfold inner_body. cbv zeta.
  destruct (Z.ltb_spec (sample_y r j) 0) as [Hlt | Hge]; [ lia | ].
  destruct (Z.geb_spec (sample_y r j) (cv.rows depth)) as [Hhi | Hlo]; [ lia | ].
  reflexivity.
Qed.

Lemma outer_body_outside (i : Z) :
  sample_x r i < 0 \/ cv.cols depth <= sample_x r i ->
  outer_body getTextSize depth elem2string elem_space r i = [].
Proof.
  intros Hout. unfold outer_body. cbv zeta.
  destruct (Z.ltb_spec (sample_x r i) 0) as [Hlt | Hge]; [ reflexivity | ].
  destruct (Z.geb_spec (sample_x r i) (cv.cols depth)) as [Hhi | Hlo]; [ reflexivity | ].
  lia.
Qed.

Lemma outer_body_inside (i : Z) :
  0 <= sample_x r i < cv.cols depth ->
  outer_body getTextSize depth elem2string elem_space r i =
  flat_map (inner_body getTextSize depth elem2string elem_space r i (sample_x r i))
    (offsets r).
Proof.
  intros Hin. unfold outer_body. cbv zeta.
  destruct (Z.ltb_spec (sample_x r i) 0) as [Hlt | Hge]; [ lia | ].
  destruct (Z.geb_spec (sample_x r i) (cv.cols depth)) as [Hhi | Hlo]; [ lia | ].
  reflexivity.
Qed.

(** Whatever one iteration of the loop over [i] emits comes from a cell of
    the grid whose column and row both lie inside the frame. *)
Lemma outer_body_In (i : Z) (c : cv.call) :
  In c (outer_body getTextSize depth elem2string elem_space r i) ->
  exists j, In j (offsets r) /\
    0 <= sample_x r i < cv.cols depth /\ 0 <= sample_y r j < cv.rows depth /\
    In c (draw_cell getTextSize depth elem2string elem_space r i j
            (sample_x r i) (sample_y r j)).
Proof.
  intros Hc.
  assert (Hx : 0 <= sample_x r i < cv.cols depth).
  { destruct (Z.lt_ge_cases (sample_x r i) 0) as [Hlt | Hge];
      [ rewrite outer_body_outside in Hc by lia; contradiction | ].
    destruct (Z.le_gt_cases (cv.cols depth) (sample_x r i)) as [Hhi | Hlo];
      [ rewrite outer_body_outside in Hc by lia; contradiction | lia ]. }
  rewrite outer_body_inside in Hc by assumption.
  apply in_flat_map in Hc as (j & Hj & Hc). exists j.
  assert (Hy : 0 <= sample_y r j < cv.rows depth).
  { destruct (Z.lt_ge_cases (sample_y r j) 0) as [Hlt | Hge];
      [ rewrite inner_body_outside in Hc by lia; contradiction | ].
    destruct (Z.le_gt_cases (cv.rows depth) (sample_y r j)) as [Hhi | Hlo];
      [ rewrite inner_body_outside in Hc by lia; contradiction | lia ]. }
  rewrite inner_body_inside in Hc by assumption. auto.
Qed.

Lemma draw_info_no_read (y x : Z) :
  ~ In (cv.At y x) (draw_info getTextSize depth getinfo r).
Proof.
  unfold draw_info. destruct getinfo as [f | ]; [ | intros [] ].
  destruct (String.eqb _ _); [ intros [] | ].
  intros [Heq | []]. discriminate Heq.
Qed.

(** C8.  For every pair of offsets [(i, j)]: when the column
    [point_.x + i] computed by the loop is outside [0, cols) the whole
    iteration for [i] issues no call, and when the row [point_.y + j] is
    outside [0, rows) the iteration for [j] issues no call -- no read of the
    depth frame, no text; consequently every [depth.at(y, x)] that
    [ShowElems] performs has [0 <= x < cols] and [0 <= y < rows], and every
    text drawn by the loops belongs to a cell inside the frame.  [ShowElems]
    is a total function: skipping is not an error. *)
Theorem ShowElems_skips_cells_outside :
  (forall i, sample_x r i < 0 \/ cv.cols depth <= sample_x r i ->
     outer_body getTextSize depth elem2string elem_space r i = []) /\
  (forall i x j, sample_y r j < 0 \/ cv.rows depth <= sample_y r j ->
     inner_body getTextSize depth elem2string elem_space r i x j = []) /\
  (forall y x,
     In (cv.At y x) (ShowElems getTextSize depth elem2string elem_space getinfo r) ->
     0 <= x < cv.cols depth /\ 0 <= y < cv.rows depth) /\
  (forall text org color thickness,
     In (cv.PutText text org color thickness)
        (flat_map (outer_body getTextSize depth elem2string elem_space r)
           (offsets r)) ->
     exists i j, In i (offsets r) /\ In j (offsets r) /\
       0 <= sample_x r i < cv.cols depth /\ 0 <= sample_y r j < cv.rows depth /\
       text = elem2string (cv.data depth (sample_y r j) (sample_x r i)) /\
       org = text_org elem_space r i j (getTextSize text)).
Proof.
  split; [ exact outer_body_outside | ].
  split; [ exact inner_body_outside | ].
  split.
  - intros y x Hin. unfold ShowElems in Hin.
    destruct (show_ r); cbn [negb] in Hin; [ | contradiction ].
    destruct Hin as [Heq | Hin]; [ discriminate Heq | ].
    apply in_app_or in Hin as [Hin | Hin].
    + apply in_flat_map in Hin as (i & _ & Hin).
      apply outer_body_In in Hin as (j & _ & Hx & Hy & Hin).
      destruct Hin as [Heq | [Heq | []]]; [ | discriminate Heq ].
      injection Heq as <- <-. auto.
    + apply in_app_or in Hin as [Hin | Hin].
      * now apply draw_info_no_read in Hin.
      * destruct Hin as [Heq | []]. discriminate Heq.
  - intros text org color thickness Hin.
    apply in_flat_map in Hin as (i & Hi & Hin).
    apply outer_body_In in Hin as (j & Hj & Hx & Hy & Hin).
    exists i, j. repeat (split; [ assumption | ]).
    destruct Hin as [Heq | [Heq | []]]; [ discriminate Heq | ].
    injection Heq as <- <- _ _. auto.
Qed.

End Cells.

Lemma ShowElems_skips_cells_outside_witness :
  sample_x (shown_at_origin 3) (-1) < 0 /\
  outer_body fixed_text_size ramp_frame depth_elem2string 80 (shown_at_origin 3) (-1)
  = [] /\
  cv.rows ramp_frame <= sample_y (mkDepthRegion 3 true false (cv.mkPoint 639 479)) 1 /\
  inner_body fixed_text_size ramp_frame depth_elem2string 80
    (mkDepthRegion 3 true false (cv.mkPoint 639 479)) 0 639 1 = [].
Proof.
  destruct (ShowElems_skips_cells_outside fixed_text_size ramp_frame
              depth_elem2string 80 None (shown_at_origin 3)) as (Hcol & _).
  destruct (ShowElems_skips_cells_outside fixed_text_size ramp_frame
              depth_elem2string 80 None
              (mkDepthRegion 3 true false (cv.mkPoint 639 479))) as (_ & Hrow & _).
  split; [ reflexivity | ].
  split; [ apply Hcol; left; reflexivity | ].
  split; [ vm_compute; discriminate | ].
  apply Hrow. right. vm_compute. discriminate.
Defined.

(** ** A selector that is not shown *)

(** C9.  While [show_] is false -- as on a selector that has just been
    constructed -- [ShowElems] issues no OpenCV call at all (no canvas, no
    read, no text, no [imshow]) and [DrawRect] returns the frame it was
    given. *)
Theorem hidden_selector_draws_nothing (T : Type) (getTextSize : string -> cv.Size)
    (depth : cv.Mat T) (elem2string : T -> string) (elem_space : Z)
    (getinfo : option (cv.Mat T -> cv.Point -> Z -> string))
    (Image : Type)
    (rectangle : Image -> cv.Point -> cv.Point -> cv.Scalar -> Z -> Image)
    (r : DepthRegion) (image : Image) :
  show_ r = false ->
  ShowElems getTextSize depth elem2string elem_space getinfo r = [] /\
  DrawRect Image rectangle r image = image.
Proof.
  intros Hshow. unfold ShowElems, DrawRect. now rewrite Hshow.
Qed.

Lemma hidden_selector_draws_nothing_witness :
  show_ (DepthRegion_new 3) = false /\
  ShowElems fixed_text_size ramp_frame depth_elem2string 80 None (DepthRegion_new 3)
  = [] /\
  DrawRect (list Outline) outline_rectangle (DepthRegion_new 3)
    [(cv.mkPoint 1 1, cv.mkPoint 2 2, cv.Scalar3 0 0 0, 1)]
  = [(cv.mkPoint 1 1, cv.mkPoint 2 2, cv.Scalar3 0 0 0, 1)].
Proof.
  split; [ reflexivity | ].
  apply (hidden_selector_draws_nothing Z fixed_text_size ramp_frame
           depth_elem2string 80 None (list Outline) outline_rectangle
           (DepthRegion_new 3)).
  reflexivity.
Defined.

(** ** The formatting rule *)

Lemma to_int_not_nil (v : Z) :
  Z.to_int v <> Decimal.Pos Decimal.Nil /\ Z.to_int v <> Decimal.Neg Decimal.Nil.
Proof.
  split; intros H; pose proof (DecimalZ.of_to v) as Hv; rewrite H in Hv;
    cbn in Hv; subst v; discriminate H.
Qed.

(** [to_string] writes a numeral that reads back as the same integer. *)
Lemma to_string_decimal (v : Z) : decimal_value (to_string v) = Some v.
Proof.
  unfold decimal_value, to_string.
  destruct (to_int_not_nil v) as [Hpos Hneg].
  rewrite NilZero.isi by assumption. cbn. now rewrite DecimalZ.of_to.
Qed.

Lemma to_string_not_invalid (v : Z) : to_string v <> "invalid"%string.
Proof.
  intros H. pose proof (to_string_decimal v) as Hv. rewrite H in Hv.
  discriminate Hv.
Qed.

(** C5.  For every 16-bit sample [v], the lambda handed to
    [ShowElems<ushort>] returns the text "invalid" exactly when
    [v >= 10000], and otherwise the decimal numeral of [v]; 10000 gives
    "invalid" and 9999 gives "9999". *)
Theorem depth_elem2string_rule (v : Z) :
  is_ushort v ->
  (depth_elem2string v = "invalid"%string <-> 10000 <= v) /\
  (v < 10000 ->
   depth_elem2string v = to_string v /\
   decimal_value (depth_elem2string v) = Some v) /\
  depth_elem2string 10000 = "invalid"%string /\
  depth_elem2string 9999 = "9999"%string.
Proof.
  intros _. unfold depth_elem2string at 1 2 3.
  destruct (Z.geb_spec v 10000) as [Hge | Hlt].
  - split; [ split; [ lia | reflexivity ] | ].
    split; [ lia | split; reflexivity ].
  - split.
    + split; [ intros H; now apply to_string_not_invalid in H | lia ].
    + split; [ intros _; split; [ reflexivity | apply to_string_decimal ] | ].
      split; reflexivity.
Qed.

Lemma depth_elem2string_rule_witness :
  is_ushort 4321 /\
  depth_elem2string 4321 = "4321"%string /\
  decimal_value (depth_elem2string 4321) = Some 4321 /\
  depth_elem2string 10000 = "invalid"%string /\
  depth_elem2string 9999 = "9999"%string.
Proof.
  assert (Hv : is_ushort 4321) by (unfold is_ushort; lia).
  destruct (depth_elem2string_rule 4321 Hv) as (_ & Hdec & Hhi & Hlo).
  destruct Hdec as [Hstr Hval]; [ lia | ].
  split; [ exact Hv | ]. split; [ exact Hstr | ]. split; [ exact Hval | ].
  split; [ exact Hhi | exact Hlo ].
Defined.

(** * Further properties of the selector *)

Lemma OnMouse_keeps_radius (event x y flags : Z) (r : DepthRegion) :
  n_ (OnMouse event x y flags r) = n_ r.
Proof.
  destruct (Z.eq_dec event CV_EVENT_MOUSEMOVE) as [-> | Hm].
  - rewrite OnMouse_move. now destruct (selected_ r).
  - destruct (Z.eq_dec event CV_EVENT_LBUTTONDOWN) as [-> | Hd].
    + now rewrite OnMouse_down.
    + now rewrite OnMouse_other.
Qed.

Lemma deliver_keeps_radius (evs : list MouseEvent) (r : DepthRegion) :
  n_ (deliver evs r) = n_ r.
Proof.
  revert r. induction evs as [ | e evs IH]; intros r; [ reflexivity | ].
  cbn [deliver]. rewrite IH. apply OnMouse_keeps_radius.
Qed.

(** X1.  The radius given to the constructor is never changed by the mouse
    callbacks, so the geometry derived from it is the same on every frame:
    after any sequence of events [n_], the loop offsets and canvas side of
    [ShowElems] and the half-width used by [DrawRect] are what they were. *)
Theorem radius_is_immutable (evs : list MouseEvent) (r : DepthRegion)
    (elem_space : Z) :
  n_ (deliver evs r) = n_ r /\
  offsets (deliver evs r) = offsets r /\
  canvas_side elem_space (deliver evs r) = canvas_side elem_space r /\
  rect_n (deliver evs r) = rect_n r.
Proof.
  pose proof (deliver_keeps_radius evs r) as Hrad.
  unfold offsets, canvas_side, grid_n, grid_first, rect_n.
  rewrite Hrad. now repeat split.
Qed.

(** X2.  A left-button-down event pins the selector at the click whenever it
    does not fall in the unpin branch: either the selector was not selected,
    or it was selected and the click lies outside the square of radius [n_]
    around the point (the bounds of the square being representable). *)
Theorem OnMouse_down_pins_at_click (r : DepthRegion) (x y flags : Z) :
  selected_ r = false \/
  (CInt.is_int (cv.x (point_ r) - n_ r) /\ CInt.is_int (cv.x (point_ r) + n_ r) /\
   CInt.is_int (cv.y (point_ r) - n_ r) /\ CInt.is_int (cv.y (point_ r) + n_ r) /\
   (n_ r < Z.abs (x - cv.x (point_ r)) \/ n_ r < Z.abs (y - cv.y (point_ r)))) ->
  selected_ (OnMouse CV_EVENT_LBUTTONDOWN x y flags r) = true /\
  point_ (OnMouse CV_EVENT_LBUTTONDOWN x y flags r) = cv.mkPoint x y /\
  show_ (OnMouse CV_EVENT_LBUTTONDOWN x y flags r) = true.
Proof.
  intros Hcase. rewrite OnMouse_down. cbn. split; [ | now split ].
  destruct (selected_ r) eqn:Hsel; [ | reflexivity ].
  destruct Hcase as [Hfree | (Hxl & Hxh & Hyl & Hyh & Hout)]; [ discriminate | ].
  destruct (in_region r x y) eqn:Hin; [ | reflexivity ].
  apply in_region_ideal in Hin; auto. lia.
Qed.

Lemma OnMouse_down_pins_at_click_witness :
  (n_ pinned_at_10_10 < Z.abs (14 - 10) \/ n_ pinned_at_10_10 < Z.abs (10 - 10)) /\
  selected_ (OnMouse CV_EVENT_LBUTTONDOWN 14 10 0 pinned_at_10_10) = true /\
  point_ (OnMouse CV_EVENT_LBUTTONDOWN 14 10 0 pinned_at_10_10) = cv.mkPoint 14 10 /\
  show_ (OnMouse CV_EVENT_LBUTTONDOWN 14 10 0 pinned_at_10_10) = true.
Proof.
  split; [ left; cbn; lia | ].
  apply (OnMouse_down_pins_at_click pinned_at_10_10 14 10 0).
  right. repeat (split; [ int_bounds | ]). left. cbn. lia.
Defined.

Lemma in_region_at_point (r : DepthRegion) (x y : Z) :
  0 <= n_ r ->
  CInt.is_int (x - n_ r) -> CInt.is_int (x + n_ r) ->
  CInt.is_int (y - n_ r) -> CInt.is_int (y + n_ r) ->
  point_ r = cv.mkPoint x y -> in_region r x y = true.
Proof.
  intros Hn Hxl Hxh Hyl Hyh Hpt. apply in_region_ideal; rewrite Hpt; cbn; auto.
  lia.
Qed.

(** X3.  Two left-button-down events at the same place [(x, y)] (with
    [n_ >= 0] and [x -/+ n_], [y -/+ n_] representable) leave the selector
    selected exactly when it was selected before and the first click was
    inside its region; in every other case -- not selected, or selected with
    the click outside the region -- the double click ends unselected.  The
    point is [(x, y)] afterwards. *)
Theorem double_click_toggles (r : DepthRegion) (x y flags1 flags2 : Z) :
  0 <= n_ r ->
  CInt.is_int (x - n_ r) -> CInt.is_int (x + n_ r) ->
  CInt.is_int (y - n_ r) -> CInt.is_int (y + n_ r) ->
  let r2 := OnMouse CV_EVENT_LBUTTONDOWN x y flags2
              (OnMouse CV_EVENT_LBUTTONDOWN x y flags1 r) in
  selected_ r2 = selected_ r && in_region r x y /\ point_ r2 = cv.mkPoint x y.
Proof.
  intros Hn Hxl Hxh Hyl Hyh. cbv zeta.
  rewrite (OnMouse_down x y flags2). split; [ | reflexivity ].
  assert (Hin1 : in_region (OnMouse CV_EVENT_LBUTTONDOWN x y flags1 r) x y = true).
  { apply in_region_at_point; rewrite ?OnMouse_keeps_radius; auto;
      now rewrite OnMouse_down. }
  cbn [selected_]. rewrite Hin1. rewrite OnMouse_down. cbn [selected_ negb].
  destruct (selected_ r), (in_region r x y); reflexivity.
Qed.

Lemma double_click_toggles_witness :
  0 <= n_ pinned_at_10_10 /\
  in_region pinned_at_10_10 100 50 = false /\
  selected_ (OnMouse CV_EVENT_LBUTTONDOWN 100 50 0
               (OnMouse CV_EVENT_LBUTTONDOWN 100 50 0 pinned_at_10_10)) = false /\
  point_ (OnMouse CV_EVENT_LBUTTONDOWN 100 50 0
            (OnMouse CV_EVENT_LBUTTONDOWN 100 50 0 pinned_at_10_10))
  = cv.mkPoint 100 50.
Proof.
  split; [ cbn; lia | ]. split; [ reflexivity | ].
  apply (double_click_toggles pinned_at_10_10 100 50 0 0); int_bounds.
Defined.

Lemma OnMouse_not_down_keeps_pin (event x y flags : Z) (r : DepthRegion) :
  event <> CV_EVENT_LBUTTONDOWN -> selected_ r = true ->
  selected_ (OnMouse event x y flags r) = true /\
  point_ (OnMouse event x y flags r) = point_ r.
Proof.
  intros Hd Hsel. destruct (Z.eq_dec event CV_EVENT_MOUSEMOVE) as [-> | Hm].
  - rewrite OnMouse_move, Hsel. now split.
  - rewrite OnMouse_other by assumption. now split.
Qed.

(** X4.  A selected (pinned) selector is released or moved only by a
    left-button-down event: after any sequence of events none of which is a
    left-button-down, it is still selected and its point has not moved. *)
Theorem pinned_until_button_down (evs : list MouseEvent) (r : DepthRegion) :
  selected_ r = true -> forallb (fun e => negb (is_down e)) evs = true ->
  selected_ (deliver evs r) = true /\ point_ (deliver evs r) = point_ r.
Proof.
  revert r. induction evs as [ | e evs IH]; intros r Hsel Hall; cbn in *;
    [ now split | ].
  apply andb_true_iff in Hall as [He Hall]. unfold is_down in He.
  apply negb_true_iff, Z.eqb_neq in He.
  destruct (OnMouse_not_down_keeps_pin (ev_event e) (ev_x e) (ev_y e)
              (ev_flags e) r He Hsel) as [Hsel' Hpt'].
  destruct (IH (OnDepthMouseCallback e r) Hsel' Hall) as [Hs Hp].
  split; [ assumption | ]. now rewrite Hp.
Qed.

Lemma pinned_until_button_down_witness :
  let evs := [mkMouseEvent CV_EVENT_MOUSEMOVE 40 41 0; mkMouseEvent 4 7 7 0;
              mkMouseEvent CV_EVENT_MOUSEMOVE 90 91 0] in
  selected_ pinned_at_10_10 = true /\
  selected_ (deliver evs pinned_at_10_10) = true /\
  point_ (deliver evs pinned_at_10_10) = cv.mkPoint 10 10.
Proof.
  cbv zeta. split; [ reflexivity | ].
  apply (pinned_until_button_down
           [mkMouseEvent CV_EVENT_MOUSEMOVE 40 41 0; mkMouseEvent 4 7 7 0;
            mkMouseEvent CV_EVENT_MOUSEMOVE 90 91 0] pinned_at_10_10);
    reflexivity.
Defined.

(** * Further properties of the grid *)

Lemma offsets_In (r : DepthRegion) (i : Z) :
  0 <= n_ r -> 2 * n_ r + 1 < CInt.INT_MAX ->
  In i (offsets r) <-> - n_ r <= i <= 2 * n_ r + 1.
Proof.
  intros Hn Hmax. unfold offsets.
  rewrite grid_n_ideal by lia.
  rewrite grid_first_ideal by (unfold CInt.INT_MAX in *; lia).
  apply for_le_In. lia.
Qed.

Lemma offsets_length (r : DepthRegion) :
  0 <= n_ r -> 2 * n_ r + 1 < CInt.INT_MAX ->
  Z.of_nat (List.length (offsets r)) = 3 * n_ r + 2.
Proof.
  intros Hn Hmax. unfold offsets.
  rewrite grid_n_ideal by lia.
  rewrite grid_first_ideal by (unfold CInt.INT_MAX in *; lia).
  rewrite for_le_length by lia. lia.
Qed.

Lemma filter_flat_map_length {A B : Type} (p : B -> bool) (f : A -> list B)
    (l : list A) :
  List.length (filter p (flat_map f l)) =
  list_sum (map (fun a => List.length (filter p (f a))) l).
Proof.
  unfold list_sum. induction l as [ | a l IH]; cbn [flat_map map fold_right];
    [ reflexivity | ].
  now rewrite filter_app, length_app, IH.
Qed.

Lemma list_sum_indicator {A : Type} (q : A -> bool) (k : nat) (l : list A) :
  list_sum (map (fun a => if q a then k else 0%nat) l) =
  (k * List.length (filter q l))%nat.
Proof.
  unfold list_sum. induction l as [ | a l IH]; cbn [map fold_right filter];
    [ cbn; lia | ].
  rewrite IH. destruct (q a); cbn [List.length]; lia.
Qed.

Lemma filter_all {A : Type} (q : A -> bool) (l : list A) :
  (forall a, In a l -> q a = true) -> filter q l = l.
Proof.
  induction l as [ | a l IH]; intros Hall; cbn; [ reflexivity | ].
  rewrite (Hall a) by now left. f_equal. apply IH. intros b Hb.
  apply Hall. now right.
Qed.

Lemma bounds_test_passes (v limit : Z) :
  0 <= v < limit -> negb ((v <? 0) || (v >=? limit)) = true.
Proof.
  intros Hv. destruct (Z.ltb_spec v 0); [ lia | ].
  destruct (Z.geb_spec v limit); [ lia | reflexivity ].
Qed.

Section Counting.

Context {T : Type}.
Variable getTextSize : string -> cv.Size.
Variable depth : cv.Mat T.
Variable elem2string : T -> string.
Variable elem_space : Z.
Variable getinfo : option (cv.Mat T -> cv.Point -> Z -> string).
Variable r : DepthRegion.

Lemma inner_body_count (p : cv.call -> bool) (i x j : Z) :
  (forall y text org color thickness,
     List.length (filter p [cv.At y x; cv.PutText text org color thickness]) = 1%nat) ->
  List.length
    (filter p (inner_body getTextSize depth elem2string elem_space r i x j)) =
  if row_inside depth r j then 1%nat else 0%nat.
Proof.
  intros Hone. unfold inner_body, row_inside. cbv zeta.
  destruct ((sample_y r j <? 0) || (sample_y r j >=? cv.rows depth));
    cbn [negb]; [ reflexivity | ].
  unfold draw_cell. apply Hone.
Qed.

Lemma outer_body_count (p : cv.call -> bool) (i : Z) :
  (forall y x text org color thickness,
     List.length (filter p [cv.At y x; cv.PutText text org color thickness]) = 1%nat) ->
  List.length (filter p (outer_body getTextSize depth elem2string elem_space r i)) =
  if col_inside depth r i
  then List.length (filter (row_inside depth r) (offsets r))
  else 0%nat.
Proof.
  intros Hone. unfold outer_body, col_inside. cbv zeta.
  destruct ((sample_x r i <? 0) || (sample_x r i >=? cv.cols depth));
    cbn [negb]; [ reflexivity | ].
  rewrite filter_flat_map_length.
  rewrite (map_ext _ (fun j => if row_inside depth r j then 1%nat else 0%nat))
    by (intros j; apply inner_body_count; intros; apply Hone).
  rewrite list_sum_indicator. lia.
Qed.

Lemma loops_count (p : cv.call -> bool) :
  (forall y x text org color thickness,
     List.length (filter p [cv.At y x; cv.PutText text org color thickness]) = 1%nat) ->
  List.length
    (filter p (flat_map (outer_body getTextSize depth elem2string elem_space r)
                 (offsets r))) =
  (List.length (filter (col_inside depth r) (offsets r)) *
   List.length (filter (row_inside depth r) (offsets r)))%nat.
Proof.
  intros Hone. rewrite filter_flat_map_length.
  rewrite (map_ext _ (fun i => if col_inside depth r i
                               then List.length (filter (row_inside depth r) (offsets r))
                               else 0%nat))
    by (intros i; apply outer_body_count; assumption).
  rewrite list_sum_indicator. lia.
Qed.

Lemma draw_info_all_text :
  filter is_read (draw_info getTextSize depth getinfo r) = [] /\
  filter is_text (draw_info getTextSize depth getinfo r) =
  draw_info getTextSize depth getinfo r.
Proof.
  unfold draw_info. destruct getinfo as [f | ]; [ | now split ].
  destruct (String.eqb _ _); now split.
Qed.


(** X6.  In a frame that contains the whole sampled window -- columns
    [point_.x - n_ .. point_.x + 2 n_ + 1] and rows likewise, with
    [2 n_ + 1 < INT_MAX] -- a shown selector makes [ShowElems] read exactly
    [(3 n_ + 2)^2] samples: 121 for the radius 3 of [main], not the 49 of a
    [(2 n_ + 1)^2] grid. *)
Theorem ShowElems_reads_full_window :
  show_ r = true -> 0 <= n_ r -> 2 * n_ r + 1 < CInt.INT_MAX ->
  cv.cols depth <= CInt.INT_MAX -> cv.rows depth <= CInt.INT_MAX ->
  n_ r <= cv.x (point_ r) -> cv.x (point_ r) + 2 * n_ r + 1 < cv.cols depth ->
  n_ r <= cv.y (point_ r) -> cv.y (point_ r) + 2 * n_ r + 1 < cv.rows depth ->
  Z.of_nat
    (List.length
       (filter is_read
          (ShowElems getTextSize depth elem2string elem_space getinfo r))) =
  (3 * n_ r + 2) * (3 * n_ r + 2).
Proof.
  intros Hshow Hn Hmax Hcols Hrows Hxl Hxh Hyl Hyh.
  unfold ShowElems. rewrite Hshow. cbn [negb filter is_read].
  destruct draw_info_all_text as [Hnoread _].
  rewrite !filter_app, !length_app, Hnoread, loops_count by reflexivity.
  assert (Hc : filter (col_inside depth r) (offsets r) = offsets r).
  { apply filter_all. intros i Hi. apply offsets_In in Hi; try assumption.
    unfold col_inside, sample_x, CInt.iadd.
    rewrite to_int_representable by int_bounds.
    apply bounds_test_passes. lia. }
  assert (Hr : filter (row_inside depth r) (offsets r) = offsets r).
  { apply filter_all. intros j Hj. apply offsets_In in Hj; try assumption.
    unfold row_inside, sample_y, CInt.iadd.
    rewrite to_int_representable by int_bounds.
    apply bounds_test_passes. lia. }
  rewrite Hc, Hr. cbn [List.length]. rewrite Nat.add_0_r, Nat2Z.inj_mul.
  now rewrite offsets_length.
Qed.

End Counting.


Lemma ShowElems_reads_full_window_witness :
  show_ pinned_at_10_10 = true /\
  n_ pinned_at_10_10 <= cv.x (point_ pinned_at_10_10) /\
  Z.of_nat
    (List.length
       (filter is_read
          (ShowElems fixed_text_size ramp_frame depth_elem2string 80 None
             pinned_at_10_10))) = 121.
Proof.
  split; [ reflexivity | ]. split; [ cbn; lia | ].
  apply (ShowElems_reads_full_window fixed_text_size ramp_frame depth_elem2string
           80 None pinned_at_10_10); try reflexivity; int_bounds.
Defined.

(** ** Where the cell texts are anchored *)

Lemma half_floor (a : Z) :
  0 <= a -> 0 <= Z.quot a 2 /\ 2 * Z.quot a 2 <= a <= 2 * Z.quot a 2 + 1.
Proof.
  intros Ha. rewrite Z.quot_div_nonneg by lia.
  pose proof (Z.div_mod a 2 ltac:(lia)) as Hdm.
  pose proof (Z.mod_pos_bound a 2 ltac:(lia)) as Hmod. lia.
Qed.

Lemma uadd_to_uint32_l (a b : Z) :
  CInt.uadd (CInt.to_uint32 a) b = CInt.to_uint32 (a + b).
Proof. unfold CInt.uadd, CInt.to_uint32. apply Zplus_mod_idemp_l. Qed.

Lemma umul_to_uint32_r (a b : Z) :
  CInt.umul a (CInt.to_uint32 b) = CInt.to_uint32 (a * b).
Proof. unfold CInt.umul, CInt.to_uint32. apply Zmult_mod_idemp_r. Qed.

(** [(i + n_) * space + delta], computed in [std::uint32_t] and stored in an
    [int], is the ideal value when nothing wraps. *)
Lemma cell_anchor_ideal (space n i delta : Z) :
  0 <= i + n -> 0 < space -> 0 <= delta ->
  (i + n) * space + delta <= CInt.INT_MAX ->
  CInt.to_int
    (CInt.uadd
       (CInt.umul (CInt.uadd (CInt.to_uint32 i) n) (CInt.to_uint32 space))
       (CInt.to_uint32 delta)) =
  (i + n) * space + delta.
Proof.
  unfold CInt.INT_MAX. intros Hin Hs Hd Hmax.
  assert (Hprod : 0 <= (i + n) * space) by nia.
  assert (Hspace : space <= 2147483647 \/ i + n = 0) by nia.
  rewrite uadd_to_uint32_l.
  rewrite (to_uint32_representable (i + n))
    by (unfold CInt.is_uint32, CInt.UINT32_MAX; nia).
  rewrite umul_to_uint32_r.
  rewrite (to_uint32_representable ((i + n) * space))
    by (unfold CInt.is_uint32, CInt.UINT32_MAX; lia).
  rewrite (to_uint32_representable delta)
    by (unfold CInt.is_uint32, CInt.UINT32_MAX; lia).
  unfold CInt.uadd. rewrite to_int_to_uint32.
  apply to_int_representable. unfold CInt.is_int, CInt.INT_MIN, CInt.INT_MAX. lia.
Qed.

(** X7.  With [n_ >= 0], a cell size [space > 0] such that
    [(3 n_ + 2) * space] fits in an [int], and a text no wider and no higher
    than a cell, the text of the cell at offsets [(i, j)] is anchored inside
    the square [(i + n_) * space .. (i + n_ + 1) * space] (likewise for [j]).
    Hence a cell with [i <= n_] is anchored left of the right edge of the
    [(2 n_ + 1) * space] canvas, while a cell with [i > n_] is anchored at or
    beyond that edge, and one with [j > n_] has even the top of its text at
    or below the bottom edge: the offsets [n_ + 1 .. 2 n_ + 1] are sampled but
    anchored off the canvas. *)
Theorem cell_text_anchor (elem_space : Z) (r : DepthRegion) (i j : Z) (sz : cv.Size) :
  0 <= n_ r -> 0 < elem_space -> (3 * n_ r + 2) * elem_space <= CInt.INT_MAX ->
  - n_ r <= i <= 2 * n_ r + 1 -> - n_ r <= j <= 2 * n_ r + 1 ->
  0 <= cv.width sz <= elem_space -> 0 <= cv.height sz <= elem_space ->
  let org := text_org elem_space r i j sz in
  ((i + n_ r) * elem_space <= cv.x org < (i + n_ r + 1) * elem_space /\
   (j + n_ r) * elem_space <= cv.y org - cv.height sz /\
   cv.y org <= (j + n_ r + 1) * elem_space) /\
  (i <= n_ r -> cv.x org < canvas_side elem_space r) /\
  (n_ r < i -> canvas_side elem_space r <= cv.x org) /\
  (n_ r < j -> canvas_side elem_space r <= cv.y org - cv.height sz).
Proof.
  intros Hn Hs Hmax Hi Hj Hw Hh. cbv zeta.
  assert (Hside : canvas_side elem_space r = (2 * n_ r + 1) * elem_space)
    by (apply canvas_side_ideal; unfold CInt.INT_MAX in *; nia).
  unfold text_org, grid_space. cbn [cv.x cv.y].
  unfold CInt.isub, CInt.iadd.
  rewrite (to_int_representable (elem_space - cv.width sz))
    by (unfold CInt.is_int, CInt.INT_MIN, CInt.INT_MAX in *; nia).
  rewrite (to_int_representable (elem_space + cv.height sz))
    by (unfold CInt.is_int, CInt.INT_MIN, CInt.INT_MAX in *; nia).
  destruct (half_floor (elem_space - cv.width sz)) as [Hdx0 Hdx]; [ lia | ].
  destruct (half_floor (elem_space + cv.height sz)) as [Hdy0 Hdy]; [ lia | ].
  unfold CInt.INT_MAX in *.
  assert (Hci : 0 <= (i + n_ r) * elem_space <= (3 * n_ r + 1) * elem_space) by nia.
  assert (Hcj : 0 <= (j + n_ r) * elem_space <= (3 * n_ r + 1) * elem_space) by nia.
  rewrite !cell_anchor_ideal by (unfold CInt.INT_MAX; lia).
  rewrite Hside.
  assert (Hlo : i <= n_ r -> (i + n_ r) * elem_space <= 2 * n_ r * elem_space) by nia.
  assert (Hhi : n_ r < i -> (2 * n_ r + 1) * elem_space <= (i + n_ r) * elem_space)
    by nia.
  assert (Hhj : n_ r < j -> (2 * n_ r + 1) * elem_space <= (j + n_ r) * elem_space)
    by nia.
  split; [ split; [ lia | split; lia ] | ].
  split; [ intros Hcase; lia | ]. split; intros Hcase; lia.
Qed.

Lemma cell_text_anchor_witness :
  let org := text_org 80 pinned_at_10_10 4 0 (cv.mkSize 63 10) in
  n_ pinned_at_10_10 < 4 /\ canvas_side 80 pinned_at_10_10 = 560 /\
  org = cv.mkPoint 568 285 /\
  canvas_side 80 pinned_at_10_10 <= cv.x org.
Proof.
  cbv zeta. split; [ cbn; lia | ]. split; [ reflexivity | ]. split; [ reflexivity | ].
  apply (cell_text_anchor 80 pinned_at_10_10 4 0 (cv.mkSize 63 10));
    int_bounds.
Defined.

(** ** Colours, the centre cell and the caption *)

Section Colours.

Context {T : Type}.
Variable getTextSize : string -> cv.Size.
Variable depth : cv.Mat T.
Variable elem2string : T -> string.
Variable elem_space : Z.
Variable getinfo : option (cv.Mat T -> cv.Point -> Z -> string).
Variable r : DepthRegion.

(** A text drawn by the loops is the text of one cell, in red at offsets
    (0, 0) and in black elsewhere. *)
Lemma loops_text (text : string) (org : cv.Point) (color : cv.Scalar) (th : Z) :
  In (cv.PutText text org color th)
     (flat_map (outer_body getTextSize depth elem2string elem_space r) (offsets r)) ->
  exists i j, In i (offsets r) /\ In j (offsets r) /\
    text = elem2string (cv.data depth (sample_y r j) (sample_x r i)) /\
    org = text_org elem_space r i j (getTextSize text) /\
    color = (if (i =? 0) && (j =? 0) then cv.Scalar3 0 0 255 else cv.Scalar3 0 0 0) /\
    th = 1.
Proof.
  intros Hin. apply in_flat_map in Hin as (i & Hi & Hin).
  apply outer_body_In in Hin as (j & Hj & _ & _ & Hin).
  exists i, j. repeat (split; [ assumption | ]).
  destruct Hin as [Heq | [Heq | []]]; [ discriminate Heq | ].
  injection Heq as <- <- <- <-. auto.
Qed.

Lemma loops_contain_cell (i j : Z) (c : cv.call) :
  In i (offsets r) -> In j (offsets r) ->
  0 <= sample_x r i < cv.cols depth -> 0 <= sample_y r j < cv.rows depth ->
  In c (draw_cell getTextSize depth elem2string elem_space r i j
          (sample_x r i) (sample_y r j)) ->
  In c (flat_map (outer_body getTextSize depth elem2string elem_space r) (offsets r)).
Proof.
  intros Hi Hj Hx Hy Hc. apply in_flat_map. exists i. split; [ assumption | ].
  rewrite outer_body_inside by assumption. apply in_flat_map. exists j.
  split; [ assumption | ]. now rewrite inner_body_inside.
Qed.

(** X8.  When the point of a shown selector lies inside the frame (radius
    [n_ >= 0] with [2 n_ + 1 < INT_MAX]), [ShowElems] reads the sample under
    the point and draws its text in red, (0, 0, 255), at the anchor of the
    cell of offsets (0, 0); and no other text of the whole rendering is red. *)
Theorem centre_cell_is_red :
  show_ r = true -> 0 <= n_ r -> 2 * n_ r + 1 < CInt.INT_MAX ->
  0 <= cv.x (point_ r) < cv.cols depth -> 0 <= cv.y (point_ r) < cv.rows depth ->
  CInt.is_int (cv.x (point_ r)) -> CInt.is_int (cv.y (point_ r)) ->
  let trace := ShowElems getTextSize depth elem2string elem_space getinfo r in
  let centre := elem2string (cv.data depth (cv.y (point_ r)) (cv.x (point_ r))) in
  In (cv.At (cv.y (point_ r)) (cv.x (point_ r))) trace /\
  In (cv.PutText centre (text_org elem_space r 0 0 (getTextSize centre))
        (cv.Scalar3 0 0 255) 1) trace /\
  (forall text org th,
     In (cv.PutText text org (cv.Scalar3 0 0 255) th) trace ->
     text = centre /\ org = text_org elem_space r 0 0 (getTextSize centre)).
Proof.
  intros Hshow Hn Hmax Hx Hy Hix Hiy. cbv zeta.
  assert (Hsx : sample_x r 0 = cv.x (point_ r))
    by (unfold sample_x, CInt.iadd; rewrite Z.add_0_r; now apply to_int_representable).
  assert (Hsy : sample_y r 0 = cv.y (point_ r))
    by (unfold sample_y, CInt.iadd; rewrite Z.add_0_r; now apply to_int_representable).
  assert (H0 : In 0 (offsets r)) by (apply offsets_In; lia).
  unfold ShowElems. rewrite Hshow. cbn [negb].
  split; [ | split ].
  - right. apply in_or_app. left.
    apply (loops_contain_cell 0 0); rewrite ?Hsx, ?Hsy; auto. now left.
  - right. apply in_or_app. left.
    apply (loops_contain_cell 0 0); rewrite ?Hsx, ?Hsy; auto. right. now left.
  - intros text org th [Heq | Hin]; [ discriminate Heq | ].
    apply in_app_or in Hin as [Hin | Hin].
    + apply loops_text in Hin as (i & j & _ & _ & Htext & Horg & Hcol & _).
      destruct (Z.eqb_spec i 0) as [-> | Hi]; [ | discriminate Hcol ].
      destruct (Z.eqb_spec j 0) as [-> | Hj]; [ | discriminate Hcol ].
      rewrite Hsx, Hsy in Htext. subst text. now split.
    + apply in_app_or in Hin as [Hin | [Heq | []]]; [ | discriminate Heq ].
      unfold draw_info in Hin. destruct getinfo as [f | ]; [ | contradiction ].
      destruct (String.eqb _ _); [ contradiction | ].
      destruct Hin as [Heq | []]. discriminate Heq.
Qed.


End Colours.

Lemma centre_cell_is_red_witness :
  show_ pinned_at_10_10 = true /\
  In (cv.At 10 10)
     (ShowElems fixed_text_size ramp_frame depth_elem2string 80 None pinned_at_10_10) /\
  In (cv.PutText "20" (cv.mkPoint 271 285) (cv.Scalar3 0 0 255) 1)
     (ShowElems fixed_text_size ramp_frame depth_elem2string 80 None pinned_at_10_10).
Proof.
  assert (Hshow : show_ pinned_at_10_10 = true) by reflexivity.
  assert (Hn : 0 <= n_ pinned_at_10_10) by int_bounds.
  assert (Hmax : 2 * n_ pinned_at_10_10 + 1 < CInt.INT_MAX) by int_bounds.
  assert (Hx : 0 <= cv.x (point_ pinned_at_10_10) < cv.cols ramp_frame) by int_bounds.
  assert (Hy : 0 <= cv.y (point_ pinned_at_10_10) < cv.rows ramp_frame) by int_bounds.
  assert (Hix : CInt.is_int (cv.x (point_ pinned_at_10_10))) by int_bounds.
  assert (Hiy : CInt.is_int (cv.y (point_ pinned_at_10_10))) by int_bounds.
  destruct (centre_cell_is_red fixed_text_size ramp_frame depth_elem2string 80 None
              pinned_at_10_10 Hshow Hn Hmax Hx Hy Hix Hiy) as (Hread & Hred & _).
  split; [ exact Hshow | ]. split; [ exact Hread | exact Hred ].
Defined.


(** * The caller *)

Lemma mixed_sub_wraps (a n : Z) :
  CInt.to_int (CInt.usub (CInt.to_uint32 a) n) = CInt.to_int (a - n).
Proof.
  unfold CInt.usub. rewrite to_int_to_uint32. unfold CInt.to_int, CInt.to_uint32.
  f_equal. rewrite <- Zplus_mod_idemp_l, Zminus_mod_idemp_l.
  now rewrite Zplus_mod_idemp_l.
Qed.

Lemma mixed_add_wraps (a n : Z) :
  CInt.to_int (CInt.uadd (CInt.to_uint32 a) n) = CInt.to_int (a + n).
Proof. rewrite uadd_to_uint32_l. apply to_int_to_uint32. Qed.

Lemma OnMouse_show (event x y flags : Z) (r : DepthRegion) :
  show_ (OnMouse event x y flags r) =
  show_ r || ((event =? CV_EVENT_MOUSEMOVE) || (event =? CV_EVENT_LBUTTONDOWN)).
Proof.
  destruct (Z.eqb_spec event CV_EVENT_MOUSEMOVE) as [-> | Hm].
  - rewrite OnMouse_move, orb_true_r. now destruct (selected_ r).
  - destruct (Z.eqb_spec event CV_EVENT_LBUTTONDOWN) as [-> | Hd].
    + now rewrite OnMouse_down, orb_true_r.
    + rewrite OnMouse_other by assumption. now rewrite orb_false_r.
Qed.

Lemma deliver_show (evs : list MouseEvent) (r : DepthRegion) :
  show_ (deliver evs r) = show_ r || existsb (fun e => is_move e || is_down e) evs.
Proof.
  revert r. induction evs as [ | e evs IH]; intros r; cbn [deliver existsb].
  - now rewrite orb_false_r.
  - rewrite IH. unfold OnDepthMouseCallback. rewrite OnMouse_show.
    unfold is_move, is_down. symmetry. apply orb_assoc.
Qed.

Lemma depth_info_not_empty {T : Type} (depth : cv.Mat T) (point : cv.Point) (n : Z) :
  depth_info depth point n <> EmptyString.
Proof. unfold depth_info. cbn [append]. discriminate. Qed.

Section Main.

Variable getTextSize : string -> cv.Size.
Variable rectangle :
  cv.Mat Z -> cv.Point -> cv.Point -> cv.Scalar -> Z -> cv.Mat Z.

(** X10.  One pass of the depth block of [main], whose selector was built
    with radius 3 and has received the callbacks [evs].  If none of them was
    a mouse move or a left-button-down, the frame is left as it is and the
    only call is [imshow("depth")].  Otherwise the pass shows the frame,
    creates a 560 x 560 canvas, and ends with the caption [depth_info] (never
    empty) drawn at (5, 5 + its height) followed by [imshow("region")]. *)
Theorem main_depth_block_trace (evs : list MouseEvent) (depth_frame : cv.Mat Z) :
  let region := main_region evs in
  let out := main_depth_block getTextSize rectangle region depth_frame in
  let info := depth_info (fst out) (point_ region) 3 in
  (existsb (fun e => is_move e || is_down e) evs = false ->
   out = (depth_frame, [cv.ImShow "depth"])) /\
  (existsb (fun e => is_move e || is_down e) evs = true ->
   exists cells,
     snd out =
     cv.ImShow "depth" :: cv.NewMat 560 560 (cv.Scalar3 255 255 255) :: cells ++
       [cv.PutText info (cv.mkPoint 5 (CInt.iadd 5 (cv.height (getTextSize info))))
          (cv.Scalar3 255 0 255) 1;
        cv.ImShow "region"]).
Proof.
  cbv zeta. unfold main_region.
  pose proof (deliver_show evs (DepthRegion_new 3)) as Hshow.
  pose proof (deliver_keeps_radius evs (DepthRegion_new 3)) as Hrad.
  cbn [show_ n_ DepthRegion_new orb] in Hshow, Hrad.
  set (region := deliver evs (DepthRegion_new 3)) in *.
  unfold main_depth_block, DrawRect, ShowElems. cbn [fst snd]. split; intros Hevs.
  - rewrite Hevs in Hshow. rewrite Hshow. reflexivity.
  - rewrite Hevs in Hshow. rewrite Hshow. cbn [negb].
    assert (Hside : canvas_side 80 region = 560)
      by (unfold canvas_side, grid_n, grid_space; rewrite Hrad; reflexivity).
    rewrite Hside. eexists. do 2 f_equal. f_equal.
    unfold draw_info. rewrite Hrad.
    match goal with
    | |- context [String.eqb ?info EmptyString] =>
        destruct (String.eqb_spec info EmptyString) as [He | Hne]
    end;
      [ now apply depth_info_not_empty in He | reflexivity ].
Qed.

(** X11.  In the depth block of [main], for a shown selector of radius
    [n_ >= 1] (with [2 n_ + 1 < INT_MAX] and the corners of the rectangle
    representable), [DrawRect] draws the rectangle whose bottom-right corner
    is [point_ + (n_ + 1)], and [ShowElems] -- which reads the frame as
    [DrawRect] left it -- reads the sample at that very corner whenever it
    lies inside the frame, and prints it in the cell of offsets
    [(n_ + 1, n_ + 1)]. *)
Theorem main_reads_rectangle_corner (region : DepthRegion) (depth_frame : cv.Mat Z) :
  let out := main_depth_block getTextSize rectangle region depth_frame in
  let h := n_ region + 1 in
  let cx := cv.x (point_ region) + h in
  let cy := cv.y (point_ region) + h in
  show_ region = true -> 1 <= n_ region -> 2 * n_ region + 1 < CInt.INT_MAX ->
  CInt.is_int (cv.x (point_ region) - h) -> CInt.is_int cx ->
  CInt.is_int (cv.y (point_ region) - h) -> CInt.is_int cy ->
  0 <= cx < cv.cols (fst out) -> 0 <= cy < cv.rows (fst out) ->
  fst out =
  rectangle depth_frame
    (cv.mkPoint (cv.x (point_ region) - h) (cv.y (point_ region) - h))
    (cv.mkPoint cx cy)
    (if selected_ region then cv.Scalar3 0 255 0 else cv.Scalar3 0 0 255) 1 /\
  In (cv.At cy cx) (snd out) /\
  In (cv.PutText (depth_elem2string (cv.data (fst out) cy cx))
        (text_org 80 region h h
           (getTextSize (depth_elem2string (cv.data (fst out) cy cx))))
        (cv.Scalar3 0 0 0) 1) (snd out).
Proof.
  cbv zeta. intros Hshow Hn Hmax Hxl Hxh Hyl Hyh.
  assert (Hh : rect_n region = n_ region + 1).
  { rewrite rect_n_ideal by int_bounds. unfold half_width. lia. }
  assert (Hframe :
    fst (main_depth_block getTextSize rectangle region depth_frame) =
    rectangle depth_frame
      (cv.mkPoint (cv.x (point_ region) - (n_ region + 1))
                  (cv.y (point_ region) - (n_ region + 1)))
      (cv.mkPoint (cv.x (point_ region) + (n_ region + 1))
                  (cv.y (point_ region) + (n_ region + 1)))
      (if selected_ region then cv.Scalar3 0 255 0 else cv.Scalar3 0 0 255) 1).
  { unfold main_depth_block, DrawRect. cbn [fst]. rewrite Hshow. cbn [negb].
    rewrite Hh.
    now rewrite !mixed_sub_representable, !mixed_add_representable by assumption. }
  intros Hcx Hcy. split; [ exact Hframe | ].
  set (frame := fst (main_depth_block getTextSize rectangle region depth_frame)) in *.
  assert (Hsx : sample_x region (n_ region + 1) = cv.x (point_ region) + (n_ region + 1))
    by (unfold sample_x, CInt.iadd; now apply to_int_representable).
  assert (Hsy : sample_y region (n_ region + 1) = cv.y (point_ region) + (n_ region + 1))
    by (unfold sample_y, CInt.iadd; now apply to_int_representable).
  assert (Hoff : In (n_ region + 1) (offsets region)) by (apply offsets_In; lia).
  assert (Hblack : (n_ region + 1 =? 0) && (n_ region + 1 =? 0) = false).
  { destruct (Z.eqb_spec (n_ region + 1) 0); [ lia | reflexivity ]. }
  change (snd (main_depth_block getTextSize rectangle region depth_frame))
    with (cv.ImShow "depth"
            :: ShowElems getTextSize frame depth_elem2string 80 (Some depth_info) region).
  unfold ShowElems. rewrite Hshow. cbn [negb].
  split; right; right; apply in_or_app; left;
    apply (loops_contain_cell getTextSize frame depth_elem2string 80 region
             (n_ region + 1) (n_ region + 1));
    rewrite ?Hsx, ?Hsy; auto; unfold draw_cell; rewrite Hblack;
    [ now left | right; now left ].
Qed.

End Main.

Lemma main_depth_block_trace_witness :
  existsb (fun e => is_move e || is_down e) [mkMouseEvent 2 5 6 0] = false /\
  main_depth_block fixed_text_size keep_frame
    (main_region [mkMouseEvent 2 5 6 0]) ramp_frame =
  (ramp_frame, [cv.ImShow "depth"]) /\
  existsb (fun e => is_move e || is_down e)
    [mkMouseEvent CV_EVENT_MOUSEMOVE 5 6 0] = true /\
  exists cells,
    snd (main_depth_block fixed_text_size keep_frame
           (main_region [mkMouseEvent CV_EVENT_MOUSEMOVE 5 6 0]) ramp_frame) =
    cv.ImShow "depth" :: cv.NewMat 560 560 (cv.Scalar3 255 255 255) :: cells ++
      [cv.PutText
         (depth_info ramp_frame (cv.mkPoint 5 6) 3) (cv.mkPoint 5 15)
         (cv.Scalar3 255 0 255) 1;
       cv.ImShow "region"].
Proof.
  destruct (main_depth_block_trace fixed_text_size keep_frame
              [mkMouseEvent 2 5 6 0] ramp_frame) as [Hhidden _].
  destruct (main_depth_block_trace fixed_text_size keep_frame
              [mkMouseEvent CV_EVENT_MOUSEMOVE 5 6 0] ramp_frame) as [_ Hshown].
  split; [ reflexivity | ]. split; [ apply Hhidden; reflexivity | ].
  split; [ reflexivity | ]. apply Hshown. reflexivity.
Defined.

Lemma main_reads_rectangle_corner_witness :
  show_ pinned_at_10_10 = true /\ 1 <= n_ pinned_at_10_10 /\
  fst (main_depth_block fixed_text_size keep_frame pinned_at_10_10 ramp_frame) =
  keep_frame ramp_frame (cv.mkPoint 6 6) (cv.mkPoint 14 14) (cv.Scalar3 0 255 0) 1 /\
  In (cv.At 14 14)
     (snd (main_depth_block fixed_text_size keep_frame pinned_at_10_10 ramp_frame)) /\
  In (cv.PutText "28" (cv.mkPoint 591 605) (cv.Scalar3 0 0 0) 1)
     (snd (main_depth_block fixed_text_size keep_frame pinned_at_10_10 ramp_frame)).
Proof.
  split; [ reflexivity | ]. split; [ int_bounds | ].
  apply (main_reads_rectangle_corner fixed_text_size keep_frame pinned_at_10_10
           ramp_frame); try reflexivity; int_bounds.
Defined.

(** ** The exit key *)

Lemma to_char_low_byte (k : Z) :
  to_char k = if k mod 256 <? 128 then k mod 256 else k mod 256 - 256.
Proof.
  unfold to_char. pose proof (Z.mod_pos_bound k 256 ltac:(lia)) as Hm.
  rewrite <- Zplus_mod_idemp_l.
  destruct (Z.ltb_spec (k mod 256) 128) as [Hlo | Hhi].
  - rewrite Z.mod_small by lia. lia.
  - replace (k mod 256 + 128) with (k mod 256 - 128 + 1 * 256) by lia.
    rewrite Z_mod_plus_full, Z.mod_small by lia. lia.
Qed.

(** X12.  The loops of both samples stop exactly when the low byte of the
    code returned by [cv::waitKey] is 27 (ESC), 113 ('q') or 81 ('Q'): the
    cast to [char] drops every higher bit, so "no key" (-1) keeps the loop
    running and a key code that carries flags above bit 7 still stops it. *)
Theorem exit_key_low_byte (k : Z) :
  is_exit_key k = true <-> k mod 256 = 27 \/ k mod 256 = 113 \/ k mod 256 = 81.
Proof.
  unfold is_exit_key. cbv zeta. rewrite to_char_low_byte.
  pose proof (Z.mod_pos_bound k 256 ltac:(lia)) as Hm.
  rewrite !orb_true_iff, !Z.eqb_eq.
  destruct (Z.ltb_spec (k mod 256) 128); lia.
Qed.

(** ** The texts of the depth cells *)

Lemma numerals_below_10000 :
  forallb
    (fun v => (1 <=? String.length (to_string v))%nat
              && (String.length (to_string v) <=? 4)%nat)
    (for_le (Z.to_nat 10000) 0 9999) = true.
Proof. vm_compute. reflexivity. Qed.

(** X13.  Every text the depth overlay puts in a cell has between 1 and 7
    characters: a 16-bit sample below 10000 gives a numeral of at most 4
    digits, any other gives the 7 letters of "invalid". *)
Theorem depth_elem2string_length (v : Z) :
  is_ushort v ->
  (1 <= String.length (depth_elem2string v) <= 7)%nat /\
  (v < 10000 -> (String.length (depth_elem2string v) <= 4)%nat).
Proof.
  unfold is_ushort, depth_elem2string. intros Hv.
  destruct (Z.geb_spec v 10000) as [Hge | Hlt]; [ cbn; lia | ].
  assert (Hin : In v (for_le (Z.to_nat 10000) 0 9999))
    by (apply for_le_In; [ rewrite Z2Nat.id | ]; lia).
  pose proof numerals_below_10000 as Hall.
  rewrite forallb_forall in Hall. specialize (Hall v Hin).
  apply andb_true_iff in Hall as [Hlo Hhi].
  apply Nat.leb_le in Hlo, Hhi. lia.
Qed.

Lemma depth_elem2string_length_witness :
  is_ushort 65535 /\ is_ushort 0 /\
  (1 <= String.length (depth_elem2string 65535) <= 7)%nat /\
  (String.length (depth_elem2string 0) <= 4)%nat.
Proof.
  assert (Hmax : is_ushort 65535) by (unfold is_ushort; lia).
  assert (Hzero : is_ushort 0) by (unfold is_ushort; lia).
  destruct (depth_elem2string_length 65535 Hmax) as [Hlen _].
  destruct (depth_elem2string_length 0 Hzero) as [_ Hshort].
  split; [ exact Hmax | ]. split; [ exact Hzero | ].
  split; [ exact Hlen | apply Hshort; lia ].
Defined.

(** X14.  On samples below 10000 the formatting rule is one-to-one --
    two samples with the same text are equal -- whereas all samples from
    10000 on share one text. *)
Theorem depth_elem2string_injective (v w : Z) :
  (v < 10000 -> w < 10000 ->
   depth_elem2string v = depth_elem2string w -> v = w) /\
  (10000 <= v -> 10000 <= w -> depth_elem2string v = depth_elem2string w).
Proof.
  unfold depth_elem2string. split.
  - intros Hv Hw.
    destruct (Z.geb_spec v 10000); [ lia | ].
    destruct (Z.geb_spec w 10000); [ lia | ].
    intros Heq. pose proof (to_string_decimal v) as Hdv.
    rewrite Heq, to_string_decimal in Hdv. now injection Hdv.
  - intros Hv Hw.
    destruct (Z.geb_spec v 10000); [ | lia ].
    destruct (Z.geb_spec w 10000); [ reflexivity | lia ].
Qed.

Lemma depth_elem2string_injective_witness :
  depth_elem2string 12000 = depth_elem2string 65535 /\
  (depth_elem2string 42 = depth_elem2string 42 -> 42 = 42).
Proof.
  destruct (depth_elem2string_injective 12000 65535) as [_ Hsame].
  destruct (depth_elem2string_injective 42 42) as [Hinj _].
  split; [ apply Hsame; lia | apply Hinj; lia ].
Defined.
